(** * Use-stage carbon dashboard: metric helpers and table builders

    Shallow embedding of [dbl_usestage_dashboard_v0.2.py]: the metric
    helpers of section 3 of the script ([total_gross_emissions],
    [total_net_emissions], [intensity_per_area], [build_historical_df],
    [build_renewables_df], [build_cost_df]) and the KPI calculations of
    sections 4 to 6.

    Numbers.  The script computes on the float columns of a pandas frame.
    They are modelled by exact rationals ([Q], compared with [==]): the
    development covers the arithmetic the script writes down, not binary64
    rounding, infinities or NaN.  Integers (years, the results of [int(...)])
    are [Z].  *)

From Stdlib Require Import ZArith QArith Qabs Qround Lqa Lia.
From Stdlib Require Import List String Ascii Bool DecimalString.
From Stdlib Require Import Sorting.Sorted Sorting.Permutation.
Import ListNotations.

Local Open Scope Q_scope.

(** ** Python primitives used by the script *)

Module Py.

(** [a < b] on floats, as a boolean. *)
Definition ltb (a b : Q) : bool :=
  (Qnum a * QDen b <? Qnum b * QDen a)%Z.

(** Truth value of a float in [x if c else y]: false exactly at zero. *)
Definition truthy (x : Q) : bool := negb (Qeq_bool x 0).

(** Builtin [max(a, b)]: keeps the first argument unless the second is
    strictly larger. *)
Definition max (a b : Q) : Q := if ltb a b then b else a.

(** Builtin [int(x)] on a float: drops the fractional part, towards zero. *)
Definition int (x : Q) : Z := Z.quot (Qnum x) (QDen x).

End Py.

(** ** One row of [yearly_data] (columns of the SELECT in [load_data]) *)

Record YearlyRow : Type := mkYearlyRow {
  year : Z;
  energy_consumption : Q;
  energy_emissions : Q;
  water_consumption : Q;
  water_emissions : Q;
  waste_consumption : Q;
  waste_emissions : Q;
  transport_consumption : Q;
  transport_emissions : Q;
  solar_pv_kwh : Q;
  solar_thermal_kwh : Q;
  renewable_offset : Q
}.

(** ** Metric helpers *)

Definition total_gross_emissions (row : YearlyRow) : Q :=
  energy_emissions row
  + water_emissions row
  + waste_emissions row
  + transport_emissions row.

Definition total_net_emissions (row : YearlyRow) : Q :=
  let gross := total_gross_emissions row in
  let offset := renewable_offset row in
  Py.max 0 (gross - offset).

Section Building.

(** Building constant of the configuration block. *)
Variable FLOOR_AREA_M2 : Q.

(** kgCO2e per square metre and year. *)
Definition intensity_per_area (net_tco2 : Q) : Q :=
  (net_tco2 * 1000) / FLOOR_AREA_M2.

End Building.

(** The value the script configures ([FLOOR_AREA_M2 = 18_000]). *)
Definition FLOOR_AREA_M2 : Q := 18000.

(** ** Frames and failures

    A data frame is the list of its rows, in row order.  The only pandas
    failure the script can reach on well-typed frames is the [IndexError]
    of [.iloc[0]] on an empty selection; [st.stop()] ends the render pass. *)

Inductive exn : Type :=
| IndexError
| StopRender.

Inductive result (A : Type) : Type :=
| Ok (a : A)
| Raise (e : exn).

Arguments Ok {A} a.
Arguments Raise {A} e.

Definition bind {A B : Type} (c : result A) (k : A -> result B) : result B :=
  match c with
  | Ok a => k a
  | Raise e => Raise e
  end.

Notation "x <- c ;; k" := (bind c (fun x => k))
  (at level 61, c at next level, right associativity).

(** [frame.iloc[0]]: the first row, [IndexError] when there is none. *)
Definition iloc0 {A : Type} (frame : list A) : result A :=
  match frame with
  | [] => Raise IndexError
  | r :: _ => Ok r
  end.

(** [df.sort_values("year")]: rows by ascending year.  Rows of equal year
    keep their relative order (the order pandas gives them is an
    implementation matter; nothing below depends on it). *)
Fixpoint insert_by_year (r : YearlyRow) (rows : list YearlyRow) : list YearlyRow :=
  match rows with
  | [] => [r]
  | h :: t =>
      if (year r <=? year h)%Z then r :: h :: t
      else h :: insert_by_year r t
  end.

Fixpoint sort_values_year (df : list YearlyRow) : list YearlyRow :=
  match df with
  | [] => []
  | r :: t => insert_by_year r (sort_values_year t)
  end.

(** ** Historical table *)

(** One dict appended by the loop of [build_historical_df]; the field
    names follow the column labels. *)
Record HistRow : Type := mkHistRow {
  Hist_Year : Z;
  Hist_Energy_kWh : Z;
  Hist_Energy_tCO2e : Q;
  Hist_Water_m3 : Z;
  Hist_Water_tCO2e : Q;
  Hist_Waste_kg : Z;
  Hist_Waste_tCO2e : Q;
  Hist_Transport_pkm : Z;
  Hist_Transport_tCO2e : Q;
  Hist_Renewable_offset_tCO2e : Q;
  Hist_Net_emissions_tCO2e : Q
}.

Definition hist_row (r : YearlyRow) : HistRow :=
  let net := total_net_emissions r in
  {| Hist_Year := year r;
     Hist_Energy_kWh := Py.int (energy_consumption r);
     Hist_Energy_tCO2e := energy_emissions r;
     Hist_Water_m3 := Py.int (water_consumption r);
     Hist_Water_tCO2e := water_emissions r;
     Hist_Waste_kg := Py.int (waste_consumption r);
     Hist_Waste_tCO2e := waste_emissions r;
     Hist_Transport_pkm := Py.int (transport_consumption r);
     Hist_Transport_tCO2e := transport_emissions r;
     Hist_Renewable_offset_tCO2e := renewable_offset r;
     Hist_Net_emissions_tCO2e := net |}.

Definition build_historical_df (df_yearly : list YearlyRow) : list HistRow :=
  map hist_row (sort_values_year df_yearly).

(** ** Renewables table *)

(** The conditional expression [(offset / gross * 100.0) if gross else 0.0],
    written once in [build_renewables_df] ([share]) and once in the KPI
    block ([offset_share]). *)
Definition offset_share_of (offset gross : Q) : Q :=
  if Py.truthy gross then offset / gross * 100 else 0.

Record RenRow : Type := mkRenRow {
  Ren_Year : Z;
  Ren_Solar_PV_kWh : Z;
  Ren_Solar_thermal_kWh : Z;
  Ren_Total_renewables_kWh : Z;
  Ren_Offset_tCO2e : Q;
  Ren_Offset_share_pct : Q
}.

Definition ren_row (r : YearlyRow) : RenRow :=
  let gross := total_gross_emissions r in
  let offset := renewable_offset r in
  let total_ren := solar_pv_kwh r + solar_thermal_kwh r in
  let share := offset_share_of offset gross in
  {| Ren_Year := year r;
     Ren_Solar_PV_kWh := Py.int (solar_pv_kwh r);
     Ren_Solar_thermal_kWh := Py.int (solar_thermal_kwh r);
     Ren_Total_renewables_kWh := Py.int total_ren;
     Ren_Offset_tCO2e := offset;
     Ren_Offset_share_pct := share |}.

Definition build_renewables_df (df_yearly : list YearlyRow) : list RenRow :=
  map ren_row (sort_values_year df_yearly).

(** ** Cost table *)

(** One row of [cost_rates]. *)
Record CostRate : Type := mkCostRate {
  category : string;
  unit_cost : Q;
  currency : string
}.

Module Text.

Local Open Scope string_scope.

Definition upper (c : ascii) : ascii :=
  let n := nat_of_ascii c in
  if ((97 <=? n) && (n <=? 122))%nat then ascii_of_nat (n - 32) else c.

Definition lower (c : ascii) : ascii :=
  let n := nat_of_ascii c in
  if ((65 <=? n) && (n <=? 90))%nat then ascii_of_nat (n + 32) else c.

Fixpoint map_ascii (f : ascii -> ascii) (s : string) : string :=
  match s with
  | EmptyString => EmptyString
  | String c s' => String (f c) (map_ascii f s')
  end.

(** [str.capitalize()] on an ASCII key. *)
Definition capitalize (s : string) : string :=
  match s with
  | EmptyString => EmptyString
  | String c s' => String (upper c) (map_ascii lower s')
  end.

Definition decimal (n : Z) : string :=
  DecimalString.NilZero.string_of_uint (N.to_uint (Z.to_N n)).

(** Nearest integer to a non-negative [x], ties to the even one. *)
Definition round_half_even (x : Q) : Z :=
  let q := (Qnum x / QDen x)%Z in
  let r := (Qnum x mod QDen x)%Z in
  match (2 * r ?= QDen x)%Z with
  | Lt => q
  | Gt => (q + 1)%Z
  | Eq => if Z.even q then q else (q + 1)%Z
  end.

Definition pad3 (n : Z) : string :=
  (if (n <? 10)%Z then "00" else if (n <? 100)%Z then "0" else "")
  ++ decimal n.

(** The format specification [.3f]. *)
Definition format_3f (x : Q) : string :=
  let scaled := round_half_even (Qabs x * 1000) in
  (if Py.ltb x 0 then "-" else "")
  ++ decimal (scaled / 1000) ++ "." ++ pad3 (scaled mod 1000).

End Text.

(** A row of the frame while the loop builds it, before the share column
    is added. *)
Record CostEntry : Type := mkCostEntry {
  Entry_Category : string;
  Entry_Consumption : Q;
  Entry_Unit : string;
  Entry_Unit_cost : string;
  Entry_Annual_cost : Q
}.

(** A row of the returned frame. *)
Record CostRow : Type := mkCostRow {
  Cost_Category : string;
  Cost_Consumption : Q;
  Cost_Unit : string;
  Cost_Unit_cost : string;
  Cost_Annual_cost : Q;
  Cost_Share_of_total : Q
}.

(** [cat_map], in insertion order.  A column name is represented by the
    projection that reads the column. *)
Definition cat_map : list (string * ((YearlyRow -> Q) * string)) :=
  [ ("energy"%string, (energy_consumption, "kWh"%string));
    ("water"%string, (water_consumption, "m³"%string));
    ("waste"%string, (waste_consumption, "kg"%string));
    ("transport"%string, (transport_consumption, "pkm"%string)) ].

(** [df_cost_rates[df_cost_rates["category"] == cat_key]] *)
Definition select_category (df_cost_rates : list CostRate) (cat_key : string)
  : list CostRate :=
  filter (fun c => String.eqb (category c) cat_key) df_cost_rates.

(** The body of the [for] loop over [cat_map.items()]. *)
Fixpoint cost_entries (items : list (string * ((YearlyRow -> Q) * string)))
    (df_yearly_row : YearlyRow) (df_cost_rates : list CostRate)
  : result (list CostEntry) :=
  match items with
  | [] => Ok []
  | (cat_key, (col_name, unit)) :: items' =>
      let cons := col_name df_yearly_row in
      rate_row <- iloc0 (select_category df_cost_rates cat_key) ;;
      let rate := unit_cost rate_row in
      let currency := currency rate_row in
      let annual_cost := cons * rate in
      let entry :=
        {| Entry_Category := Text.capitalize cat_key;
           Entry_Consumption := cons;
           Entry_Unit := unit;
           Entry_Unit_cost := (Text.format_3f rate ++ " " ++ currency)%string;
           Entry_Annual_cost := annual_cost |} in
      rows <- cost_entries items' df_yearly_row df_cost_rates ;;
      Ok (entry :: rows)
  end.

(** [Series.sum()] *)
Definition series_sum (s : list Q) : Q := fold_left Qplus s 0.

Definition with_share (share : Q) (e : CostEntry) : CostRow :=
  {| Cost_Category := Entry_Category e;
     Cost_Consumption := Entry_Consumption e;
     Cost_Unit := Entry_Unit e;
     Cost_Unit_cost := Entry_Unit_cost e;
     Cost_Annual_cost := Entry_Annual_cost e;
     Cost_Share_of_total := share |}.

Definition build_cost_df (df_yearly_row : YearlyRow) (df_cost_rates : list CostRate)
  : result (list CostRow * Q) :=
  rows <- cost_entries cat_map df_yearly_row df_cost_rates ;;
  let total := series_sum (map Entry_Annual_cost rows) in
  let df :=
    if Py.ltb 0 total
    then map (fun e => with_share (Entry_Annual_cost e / total * 100) e) rows
    else map (with_share 0) rows in
  Ok (df, total).

(** ** KPI calculations (sections 4 to 6 of the script) *)

(** The conditional expression
    [((baseline - current) / baseline) * 100.0 if baseline else 0.0],
    written three times in the KPI block ([delta_net], [delta_intensity],
    [delta_energy]). *)
Definition delta_vs_baseline (baseline current : Q) : Q :=
  if Py.truthy baseline then ((baseline - current) / baseline) * 100 else 0.

(** [df_yearly[df_yearly["year"] == y]] *)
Definition select_year (df_yearly : list YearlyRow) (y : Z) : list YearlyRow :=
  filter (fun r => (year r =? y)%Z) df_yearly.

(** The names the KPI block binds. *)
Record Kpi : Type := mkKpi {
  baseline_year : Z;
  row_year : YearlyRow;
  row_baseline : YearlyRow;
  net_em : Q;
  baseline_net : Q;
  delta_net : Q;
  net_intensity : Q;
  baseline_intensity : Q;
  delta_intensity : Q;
  energy_cons : Q;
  baseline_energy_cons : Q;
  delta_energy : Q;
  gross_em : Q;
  offset : Q;
  offset_share : Q
}.

(** One render pass up to the KPI cards: [df_yearly] is the frame
    [load_data] returned and [selected_year] the value of the "Reporting
    year" select box. *)
Definition kpis (df_yearly : list YearlyRow) (selected_year : Z) : result Kpi :=
  match df_yearly with
  | [] => Raise StopRender
  | r0 :: rest =>
      let baseline_year := fold_left Z.min (map year rest) (year r0) in
      row_year <- iloc0 (select_year df_yearly selected_year) ;;
      row_baseline <- iloc0 (select_year df_yearly baseline_year) ;;
      let net_em := total_net_emissions row_year in
      let baseline_net := total_net_emissions row_baseline in
      let delta_net := delta_vs_baseline baseline_net net_em in
      let net_intensity := intensity_per_area FLOOR_AREA_M2 net_em in
      let baseline_intensity := intensity_per_area FLOOR_AREA_M2 baseline_net in
      let delta_intensity := delta_vs_baseline baseline_intensity net_intensity in
      let energy_cons := energy_consumption row_year in
      let baseline_energy_cons := energy_consumption row_baseline in
      let delta_energy := delta_vs_baseline baseline_energy_cons energy_cons in
      let gross_em := total_gross_emissions row_year in
      let offset := renewable_offset row_year in
      let offset_share := offset_share_of offset gross_em in
      Ok {| baseline_year := baseline_year;
            row_year := row_year;
            row_baseline := row_baseline;
            net_em := net_em;
            baseline_net := baseline_net;
            delta_net := delta_net;
            net_intensity := net_intensity;
            baseline_intensity := baseline_intensity;
            delta_intensity := delta_intensity;
            energy_cons := energy_cons;
            baseline_energy_cons := baseline_energy_cons;
            delta_energy := delta_energy;
            gross_em := gross_em;
            offset := offset;
            offset_share := offset_share |}
  end.

(** ** Reporting years (section 4 and the sidebar) *)

(** [Series.unique()]: the distinct values, in order of first appearance. *)
Fixpoint unique (s : list Z) : list Z :=
  match s with
  | [] => []
  | x :: t => x :: filter (fun y => negb (y =? x)%Z) (unique t)
  end.

(** [sorted(values, reverse=True)] *)
Fixpoint insert_desc (x : Z) (l : list Z) : list Z :=
  match l with
  | [] => [x]
  | h :: t => if (h <=? x)%Z then x :: h :: t else h :: insert_desc x t
  end.

Fixpoint sorted_reverse (values : list Z) : list Z :=
  match values with
  | [] => []
  | x :: t => insert_desc x (sorted_reverse t)
  end.

(** The options of the "Reporting year" select box. *)
Definition years (df_yearly : list YearlyRow) : list Z :=
  sorted_reverse (unique (map year df_yearly)).

(** The select box before the user touches it ([index=0]); it has no value
    when it has no options. *)
Definition default_year (df_yearly : list YearlyRow) : option Z :=
  hd_error (years df_yearly).

(** ** Comfort section *)




(** ** Cost section *)



(** ** Predicates used in the statements *)

(** Order on rows that [sort_values_year] establishes. *)
Definition year_le (a b : YearlyRow) : Prop := (year a <= year b)%Z.

(** [z] is [x] without its fractional part, cut towards zero. *)
Definition truncated (z : Z) (x : Q) : Prop :=
  (0 <= x -> inject_Z z <= x /\ x < inject_Z z + 1)
  /\ (x <= 0 -> inject_Z z - 1 < x /\ x <= inject_Z z).

(** [z] is a whole number nearest to [x]. *)
Definition nearest_whole (z : Z) (x : Q) : Prop :=
  Qabs (x - inject_Z z) <= 1 # 2.

(** The four fixed categories, the keys of [cat_map]. *)
Definition categories : list string :=
  ["energy"; "water"; "waste"; "transport"]%string.

(** ** Sample data *)

(** A record with consumptions 200 m3, 500 kg and 3000 pkm, emissions 2, 1
    and 0.5 tCO2e outside energy, and half a kWh each of PV and solar
    thermal generation. *)
Definition sample_row (y : Z) (e_cons e_em offs : Q) : YearlyRow :=
  {| year := y;
     energy_consumption := e_cons; energy_emissions := e_em;
     water_consumption := 200; water_emissions := 2;
     waste_consumption := 500; waste_emissions := 1;
     transport_consumption := 3000; transport_emissions := 1 # 2;
     solar_pv_kwh := 1 # 2; solar_thermal_kwh := 1 # 2;
     renewable_offset := offs |}.

Definition sample_rates : list CostRate :=
  [ {| category := "energy"; unit_cost := 1 # 4; currency := "EUR/kWh" |};
    {| category := "water"; unit_cost := 3; currency := "EUR/m3" |};
    {| category := "waste"; unit_cost := 1 # 10; currency := "EUR/kg" |};
    {| category := "transport"; unit_cost := 1 # 20; currency := "EUR/pkm" |} ].

(** The sample rates without the waste rate. *)
Definition rates_without_waste : list CostRate :=
  filter (fun c => negb (String.eqb (category c) "waste")) sample_rates.

(** A frame in the order the query returns it, latest year first apart
    from the last two rows. *)
Definition sample_frame : list YearlyRow :=
  [ sample_row 2023 1000 10 5; sample_row 2021 (11 # 4) 12 20;
    sample_row 2022 1100 11 4 ].

(** The records of the two emission scenarios: category emissions 10, 2, 1
    and 0.5 with an offset of 5, and the same with an offset of 20. *)
Definition scenario_A : YearlyRow := sample_row 2023 1000 10 5.
Definition scenario_B : YearlyRow := sample_row 2023 1000 10 20.

(** A record without emissions but with an offset. *)
Definition no_emissions : YearlyRow :=
  {| year := 2020;
     energy_consumption := 0; energy_emissions := 0;
     water_consumption := 0; water_emissions := 0;
     waste_consumption := 0; waste_emissions := 0;
     transport_consumption := 0; transport_emissions := 0;
     solar_pv_kwh := 40; solar_thermal_kwh := 2;
     renewable_offset := 7 |}.

(** A record whose energy consumption is 2.75 kWh. *)
Definition fractional_row : YearlyRow := sample_row 2021 (11 # 4) 12 20.

(** A record with 1200 kWh of PV and 300 kWh of solar thermal generation. *)
Definition whole_row : YearlyRow :=
  {| year := 2024;
     energy_consumption := 900; energy_emissions := 9;
     water_consumption := 200; water_emissions := 2;
     waste_consumption := 500; waste_emissions := 1;
     transport_consumption := 3000; transport_emissions := 1 # 2;
     solar_pv_kwh := 1200; solar_thermal_kwh := 300;
     renewable_offset := 3 |}.


(** The sample frame in another row order. *)
Definition sample_frame_shuffled : list YearlyRow :=
  [ sample_row 2022 1100 11 4; sample_row 2023 1000 10 5;
    sample_row 2021 (11 # 4) 12 20 ].

(** Rates with a credit on energy that outweighs the other costs, and a
    second, later energy rate. *)
Definition credit_rates : list CostRate :=
  [ {| category := "energy"; unit_cost := - (2); currency := "EUR/kWh" |};
    {| category := "water"; unit_cost := 3; currency := "EUR/m3" |};
    {| category := "waste"; unit_cost := 1 # 10; currency := "EUR/kg" |};
    {| category := "transport"; unit_cost := 1 # 20; currency := "EUR/pkm" |};
    {| category := "energy"; unit_cost := 1 # 4; currency := "EUR/kWh" |} ].

(** * Properties *)

(** ** Facts about the Python primitives *)

Lemma ltb_spec (a b : Q) : BoolSpec (a < b) (b <= a) (Py.ltb a b).
Proof.
  unfold Py.ltb, Qlt, Qle.
  destruct (Z.ltb_spec (Qnum a * QDen b) (Qnum b * QDen a)); constructor; lia.
Qed.

Lemma truthy_true (x : Q) : ~ x == 0 -> Py.truthy x = true.
Proof.
  intros H. unfold Py.truthy.
  destruct (Qeq_bool x 0) eqn:E; [|reflexivity].
  apply Qeq_bool_iff in E. contradiction.
Qed.

Lemma truthy_false (x : Q) : x == 0 -> Py.truthy x = false.
Proof.
  intros H. unfold Py.truthy.
  apply Qeq_bool_iff in H. now rewrite H.
Qed.

Lemma max0_nonneg (x : Q) : 0 <= Py.max 0 x.
Proof.
  unfold Py.max. destruct (ltb_spec 0 x); lra.
Qed.

Lemma max0_of_nonneg (x : Q) : 0 <= x -> Py.max 0 x == x.
Proof.
  unfold Py.max. destruct (ltb_spec 0 x); lra.
Qed.

Lemma max0_of_nonpos (x : Q) : x <= 0 -> Py.max 0 x = 0.
Proof.
  unfold Py.max. destruct (ltb_spec 0 x); [lra | reflexivity].
Qed.

(** [int] is the floor of a non-negative float and the ceiling of a
    non-positive one. *)
Lemma int_floor (x : Q) : 0 <= x -> Py.int x = Qfloor x.
Proof.
  destruct x as [n d]. unfold Qle, Py.int, Qfloor. simpl. intros H.
  apply Z.quot_div_nonneg; lia.
Qed.

Lemma int_ceiling (x : Q) : x <= 0 -> Py.int x = Qceiling x.
Proof.
  destruct x as [n d]. unfold Qle, Py.int, Qceiling, Qfloor. simpl. intros H.
  replace n with (- - n)%Z at 1 by lia.
  rewrite Z.quot_opp_l by lia.
  rewrite Z.quot_div_nonneg by lia. reflexivity.
Qed.

Lemma int_inject_Z (z : Z) : Py.int (inject_Z z) = z.
Proof.
  unfold Py.int. simpl. apply Z.quot_1_r.
Qed.

(** ** Metric helpers *)

(** C1. For every yearly record, net emissions are non-negative; they equal
    gross emissions minus the renewable offset whenever the offset does not
    exceed gross emissions; an offset larger than gross emissions gives
    exactly zero. *)
Theorem total_net_emissions_clamped (r : YearlyRow) :
  0 <= total_net_emissions r
  /\ (renewable_offset r <= total_gross_emissions r ->
      total_net_emissions r == total_gross_emissions r - renewable_offset r)
  /\ (total_gross_emissions r < renewable_offset r ->
      total_net_emissions r = 0).
Proof.
  unfold total_net_emissions. cbv zeta. repeat split.
  - apply max0_nonneg.
  - intros H. apply max0_of_nonneg. lra.
  - intros H. apply max0_of_nonpos. lra.
Qed.

Lemma total_net_emissions_clamped_witness :
  (renewable_offset scenario_A <= total_gross_emissions scenario_A
   /\ total_gross_emissions scenario_A == 27 # 2
   /\ total_net_emissions scenario_A == 17 # 2)
  /\ (total_gross_emissions scenario_B < renewable_offset scenario_B
      /\ total_net_emissions scenario_B = 0).
Proof.
  assert (HA : renewable_offset scenario_A <= total_gross_emissions scenario_A)
    by (vm_compute; discriminate).
  assert (HB : total_gross_emissions scenario_B < renewable_offset scenario_B)
    by reflexivity.
  destruct (total_net_emissions_clamped scenario_A) as [_ [EA _]].
  destruct (total_net_emissions_clamped scenario_B) as [_ [_ EB]].
  split.
  - split; [exact HA | split; [reflexivity |]].
    rewrite (EA HA). reflexivity.
  - split; [exact HB | exact (EB HB)].
Defined.

(** C6. The delta-from-baseline expression equals
    [(baseline - current) / baseline * 100] for every nonzero baseline, is
    exactly zero when the baseline is zero, hence zero at baseline 0 for any
    current value and zero when current equals a nonzero baseline; a
    reduction below a positive baseline is reported positive. *)
Theorem delta_vs_baseline_spec (baseline current : Q) :
  (~ baseline == 0 ->
   delta_vs_baseline baseline current == (baseline - current) / baseline * 100)
  /\ (baseline == 0 -> delta_vs_baseline baseline current = 0)
  /\ delta_vs_baseline 0 current = 0
  /\ (~ baseline == 0 -> delta_vs_baseline baseline baseline == 0)
  /\ (0 < baseline -> current < baseline ->
      0 < delta_vs_baseline baseline current).
Proof.
  unfold delta_vs_baseline. repeat split.
  - intros H. rewrite (truthy_true _ H). reflexivity.
  - intros H. rewrite (truthy_false _ H). reflexivity.
  - intros H. rewrite (truthy_true _ H). field. exact H.
  - intros Hb Hc. rewrite truthy_true by lra.
    assert (0 < (baseline - current) / baseline).
    { apply Qlt_shift_div_l; lra. }
    lra.
Qed.

Lemma delta_vs_baseline_spec_witness :
  ~ 100 == 0
  /\ delta_vs_baseline 100 80 == 20
  /\ delta_vs_baseline 0 80 = 0
  /\ delta_vs_baseline 100 100 == 0
  /\ 0 < delta_vs_baseline 100 80.
Proof.
  assert (Hnz : ~ 100 == 0) by (intro H; discriminate H).
  destruct (delta_vs_baseline_spec 100 80) as [E1 [_ [_ [_ E5]]]].
  destruct (delta_vs_baseline_spec 0 80) as [_ [E2 _]].
  destruct (delta_vs_baseline_spec 100 100) as [_ [_ [_ [E4 _]]]].
  split; [exact Hnz |].
  split; [rewrite (E1 Hnz); reflexivity |].
  split; [apply E2; reflexivity |].
  split; [exact (E4 Hnz) |].
  apply E5; reflexivity.
Defined.

(** What a successful render pass binds: every KPI is the script's
    expression over the two selected rows. *)
Lemma kpis_fields (df : list YearlyRow) (y : Z) (k : Kpi) :
  kpis df y = Ok k ->
  iloc0 (select_year df y) = Ok (row_year k)
  /\ iloc0 (select_year df (baseline_year k)) = Ok (row_baseline k)
  /\ net_em k = total_net_emissions (row_year k)
  /\ baseline_net k = total_net_emissions (row_baseline k)
  /\ delta_net k = delta_vs_baseline (baseline_net k) (net_em k)
  /\ net_intensity k = intensity_per_area FLOOR_AREA_M2 (net_em k)
  /\ baseline_intensity k = intensity_per_area FLOOR_AREA_M2 (baseline_net k)
  /\ delta_intensity k
     = delta_vs_baseline (baseline_intensity k) (net_intensity k)
  /\ energy_cons k = energy_consumption (row_year k)
  /\ baseline_energy_cons k = energy_consumption (row_baseline k)
  /\ delta_energy k = delta_vs_baseline (baseline_energy_cons k) (energy_cons k)
  /\ gross_em k = total_gross_emissions (row_year k)
  /\ offset k = renewable_offset (row_year k)
  /\ offset_share k = offset_share_of (offset k) (gross_em k).
Proof.
  unfold kpis. destruct df as [|r0 rest]; [discriminate|].
  set (b := fold_left Z.min (map year rest) (year r0)).
  destruct (iloc0 (select_year (r0 :: rest) y)) as [ry|] eqn:Ey;
    [|discriminate].
  cbn [bind].
  destruct (iloc0 (select_year (r0 :: rest) b)) as [rb|] eqn:Eb;
    [|discriminate].
  cbn [bind]. intros H. injection H as <-.
  split; [reflexivity |]. split; [exact Eb |].
  repeat split.
Qed.

(** C7. The renewable offset share of a record, as the renewables table and
    the KPI card compute it, equals [offset / gross * 100] when gross
    emissions are nonzero and is exactly zero when gross emissions are zero,
    whatever the offset. *)
Theorem offset_share_spec (r : YearlyRow) :
  (~ total_gross_emissions r == 0 ->
   Ren_Offset_share_pct (ren_row r)
   == renewable_offset r / total_gross_emissions r * 100)
  /\ (total_gross_emissions r == 0 -> Ren_Offset_share_pct (ren_row r) = 0)
  /\ (forall df k, kpis df (year r) = Ok k -> row_year k = r ->
      offset_share k = Ren_Offset_share_pct (ren_row r)).
Proof.
  cbn [ren_row Ren_Offset_share_pct]. unfold offset_share_of.
  split; [|split].
  - intros H. rewrite (truthy_true _ H). reflexivity.
  - intros H. rewrite (truthy_false _ H). reflexivity.
  - intros df k Hk Hr.
    destruct (kpis_fields _ _ _ Hk)
      as (_ & _ & _ & _ & _ & _ & _ & _ & _ & _ & _ & Hg & Ho & Hs).
    rewrite Hs, Ho, Hg, Hr. reflexivity.
Qed.

Lemma offset_share_spec_witness :
  (~ total_gross_emissions scenario_A == 0
   /\ Ren_Offset_share_pct (ren_row scenario_A) == 1000 # 27)
  /\ (total_gross_emissions no_emissions == 0
      /\ Ren_Offset_share_pct (ren_row no_emissions) = 0)
  /\ (exists k, kpis [scenario_A] (year scenario_A) = Ok k
                /\ offset_share k = Ren_Offset_share_pct (ren_row scenario_A)).
Proof.
  assert (HA : ~ total_gross_emissions scenario_A == 0)
    by (intro H; discriminate H).
  assert (HZ : total_gross_emissions no_emissions == 0) by reflexivity.
  destruct (offset_share_spec scenario_A) as [EA [_ EK]].
  destruct (offset_share_spec no_emissions) as [_ [EZ _]].
  split; [split; [exact HA | rewrite (EA HA); reflexivity] |].
  split; [split; [exact HZ | exact (EZ HZ)] |].
  destruct (kpis [scenario_A] (year scenario_A)) as [k|] eqn:E;
    [|discriminate E].
  exists k. split; [reflexivity |].
  apply (EK [scenario_A] k E).
  vm_compute in E. injection E as <-. reflexivity.
Defined.

(** C8. For every net emissions value and every positive floor area the
    carbon intensity equals [net * 1000 / floor_area], the kilograms per
    square metre; with the configured floor area of 18000 m2, a net of
    90 tCO2e gives an intensity of exactly 5. *)
Theorem intensity_per_area_spec (floor_area net_tco2 : Q) :
  0 < floor_area ->
  intensity_per_area floor_area net_tco2 == net_tco2 * 1000 / floor_area
  /\ intensity_per_area floor_area net_tco2 * floor_area == net_tco2 * 1000
  /\ FLOOR_AREA_M2 = 18000
  /\ intensity_per_area FLOOR_AREA_M2 90 == 5.
Proof.
  intros H. unfold intensity_per_area.
  split; [reflexivity |].
  split; [field; lra |].
  split; reflexivity.
Qed.

Lemma intensity_per_area_spec_witness :
  0 < 18000 /\ intensity_per_area 18000 90 == 90 * 1000 / 18000.
Proof.
  assert (H : 0 < 18000) by reflexivity.
  split; [exact H |].
  exact (proj1 (intensity_per_area_spec 18000 90 H)).
Defined.

(** ** Sorting by year *)

Lemma insert_by_year_perm (r : YearlyRow) (rows : list YearlyRow) :
  Permutation (r :: rows) (insert_by_year r rows).
Proof.
  induction rows as [|h t IH]; cbn.
  - apply Permutation_refl.
  - destruct (year r <=? year h)%Z.
    + apply Permutation_refl.
    + eapply perm_trans; [apply perm_swap |].
      apply perm_skip. exact IH.
Qed.

Lemma sort_values_year_perm (df : list YearlyRow) :
  Permutation df (sort_values_year df).
Proof.
  induction df as [|r t IH]; cbn.
  - apply perm_nil.
  - eapply perm_trans; [apply perm_skip; exact IH |].
    apply insert_by_year_perm.
Qed.

Lemma insert_by_year_sorted (r : YearlyRow) (rows : list YearlyRow) :
  StronglySorted year_le rows ->
  StronglySorted year_le (insert_by_year r rows).
Proof.
  induction 1 as [|h t Ht IH Hall]; cbn.
  - constructor; constructor.
  - destruct (Z.leb_spec (year r) (year h)) as [Hle|Hgt].
    + constructor; [constructor; assumption |].
      constructor; [exact Hle |].
      eapply Forall_impl; [|exact Hall].
      unfold year_le. intros a Ha. lia.
    + constructor; [exact IH |].
      eapply Permutation_Forall; [apply insert_by_year_perm |].
      constructor; [unfold year_le; lia | exact Hall].
Qed.

Lemma sort_values_year_sorted (df : list YearlyRow) :
  StronglySorted year_le (sort_values_year df).
Proof.
  induction df as [|r t IH]; cbn.
  - constructor.
  - apply insert_by_year_sorted. exact IH.
Qed.

Lemma sorted_map_year (rows : list YearlyRow) :
  StronglySorted year_le rows -> StronglySorted Z.le (map year rows).
Proof.
  induction 1 as [|h t Ht IH Hall]; cbn; constructor.
  - exact IH.
  - apply Forall_map. exact Hall.
Qed.

(** A non-decreasing list without repetition is increasing. *)
Lemma sorted_nodup_strict (l : list Z) :
  StronglySorted Z.le l -> NoDup l -> StronglySorted Z.lt l.
Proof.
  induction 1 as [|h t Ht IH Hall]; intros Hnd; constructor.
  - apply IH. now inversion Hnd.
  - inversion Hnd as [|? ? Hnotin Hnd']; subst.
    rewrite Forall_forall in *. intros x Hx.
    specialize (Hall x Hx).
    assert (x <> h) by (intros ->; contradiction).
    lia.
Qed.

Lemma hist_years (rows : list YearlyRow) :
  map Hist_Year (map hist_row rows) = map year rows.
Proof.
  rewrite map_map. apply map_ext. reflexivity.
Qed.

(** C4. The historical table has as many rows as the input frame: its rows
    are the rows built from a rearrangement of the input records, none
    dropped and none added; the years are in ascending order, and strictly
    ascending without duplicates when the input years are unique. *)
Theorem build_historical_df_rows (df_yearly : list YearlyRow) :
  List.length (build_historical_df df_yearly) = List.length df_yearly
  /\ (exists rows, Permutation df_yearly rows
                   /\ build_historical_df df_yearly = map hist_row rows)
  /\ StronglySorted Z.le (map Hist_Year (build_historical_df df_yearly))
  /\ (NoDup (map year df_yearly) ->
      StronglySorted Z.lt (map Hist_Year (build_historical_df df_yearly))
      /\ NoDup (map Hist_Year (build_historical_df df_yearly))).
Proof.
  unfold build_historical_df.
  pose proof (sort_values_year_perm df_yearly) as Hperm.
  pose proof (sort_values_year_sorted df_yearly) as Hsorted.
  rewrite hist_years.
  split; [|split; [|split]].
  - rewrite List.length_map. symmetry. apply Permutation_length. exact Hperm.
  - exists (sort_values_year df_yearly). split; [exact Hperm | reflexivity].
  - apply sorted_map_year. exact Hsorted.
  - intros Hnd.
    assert (Hnd' : NoDup (map year (sort_values_year df_yearly))).
    { eapply Permutation_NoDup; [|exact Hnd].
      apply Permutation_map. exact Hperm. }
    split; [|exact Hnd'].
    apply sorted_nodup_strict; [|exact Hnd'].
    apply sorted_map_year. exact Hsorted.
Qed.

Lemma build_historical_df_rows_witness :
  NoDup (map year sample_frame)
  /\ map Hist_Year (build_historical_df sample_frame) = [2021; 2022; 2023]%Z
  /\ StronglySorted Z.lt (map Hist_Year (build_historical_df sample_frame)).
Proof.
  assert (Hnd : NoDup (map year sample_frame)).
  { cbn. repeat constructor; cbn; intuition discriminate. }
  split; [exact Hnd |]. split; [reflexivity |].
  exact (proj1
           (proj2 (proj2 (proj2 (build_historical_df_rows sample_frame))) Hnd)).
Defined.

(** ** Whole-number figures of the tables *)

Lemma int_truncated (x : Q) : truncated (Py.int x) x.
Proof.
  split; intros H.
  - rewrite (int_floor x H). split; [apply Qfloor_le |].
    pose proof (Qlt_floor x) as Hf.
    rewrite inject_Z_plus in Hf. exact Hf.
  - rewrite (int_ceiling x H). split; [|apply Qle_ceiling].
    pose proof (Qceiling_lt x) as Hc.
    unfold Z.sub in Hc. rewrite inject_Z_plus in Hc. exact Hc.
Qed.

Lemma int_whole (x : Q) (z : Z) : x == inject_Z z -> Py.int x = z.
Proof.
  destruct x as [n d]. unfold Qeq, Py.int. simpl. intros H.
  rewrite Z.mul_1_r in H. subst n. apply Z.quot_mul. lia.
Qed.

Lemma int_add_bounds (p t : Q) :
  0 <= p -> 0 <= t ->
  (Py.int p + Py.int t <= Py.int (p + t) <= Py.int p + Py.int t + 1)%Z.
Proof.
  intros Hp Ht.
  destruct (int_truncated p) as [[Hp1 Hp2] _]; [exact Hp |].
  destruct (int_truncated t) as [[Ht1 Ht2] _]; [exact Ht |].
  destruct (int_truncated (p + t)) as [[Hs1 Hs2] _]; [lra |].
  set (a := Py.int p) in *. set (b := Py.int t) in *.
  set (c := Py.int (p + t)) in *.
  assert (H1 : inject_Z (a + b) < inject_Z (c + 1)).
  { rewrite !inject_Z_plus. change (inject_Z 1) with 1. lra. }
  assert (H2 : inject_Z c < inject_Z (a + b + 2)).
  { rewrite !inject_Z_plus. change (inject_Z 2) with 2. lra. }
  rewrite <- Zlt_Qlt in H1, H2. lia.
Qed.

Lemma in_sorted_frame (df : list YearlyRow) (r : YearlyRow) :
  In r (sort_values_year df) <-> In r df.
Proof.
  split; apply Permutation_in;
    [apply Permutation_sym |]; apply sort_values_year_perm.
Qed.

(** C5, as amended.  Every row of the historical table is built from one
    input record: each of its four consumption figures is that record's
    field with the fractional part dropped (towards zero, not to the
    nearest whole unit), a whole-valued field being shown as it is; the
    emission figures, the renewable offset and the net emissions are
    reproduced unchanged. *)
Theorem build_historical_df_figures (df_yearly : list YearlyRow) (row : HistRow) :
  In row (build_historical_df df_yearly) ->
  exists r, In r df_yearly
    /\ Hist_Year row = year r
    /\ truncated (Hist_Energy_kWh row) (energy_consumption r)
    /\ truncated (Hist_Water_m3 row) (water_consumption r)
    /\ truncated (Hist_Waste_kg row) (waste_consumption r)
    /\ truncated (Hist_Transport_pkm row) (transport_consumption r)
    /\ (forall z, energy_consumption r == inject_Z z -> Hist_Energy_kWh row = z)
    /\ (forall z, water_consumption r == inject_Z z -> Hist_Water_m3 row = z)
    /\ (forall z, waste_consumption r == inject_Z z -> Hist_Waste_kg row = z)
    /\ (forall z, transport_consumption r == inject_Z z ->
                  Hist_Transport_pkm row = z)
    /\ Hist_Energy_tCO2e row = energy_emissions r
    /\ Hist_Water_tCO2e row = water_emissions r
    /\ Hist_Waste_tCO2e row = waste_emissions r
    /\ Hist_Transport_tCO2e row = transport_emissions r
    /\ Hist_Renewable_offset_tCO2e row = renewable_offset r
    /\ Hist_Net_emissions_tCO2e row = total_net_emissions r.
Proof.
  unfold build_historical_df. intros Hin.
  apply in_map_iff in Hin. destruct Hin as [r [<- Hr]].
  apply (proj1 (in_sorted_frame _ _)) in Hr.
  exists r. cbn [hist_row Hist_Year Hist_Energy_kWh Hist_Water_m3 Hist_Waste_kg
                 Hist_Transport_pkm Hist_Energy_tCO2e Hist_Water_tCO2e
                 Hist_Waste_tCO2e Hist_Transport_tCO2e
                 Hist_Renewable_offset_tCO2e Hist_Net_emissions_tCO2e].
  split; [exact Hr |]. split; [reflexivity |].
  do 4 (split; [apply int_truncated |]).
  do 4 (split; [intros z Hz; apply int_whole; exact Hz |]).
  repeat split.
Qed.

Lemma build_historical_df_figures_witness :
  In (hist_row fractional_row) (build_historical_df [fractional_row])
  /\ exists r, In r [fractional_row]
       /\ truncated (Hist_Energy_kWh (hist_row fractional_row))
                    (energy_consumption r)
       /\ Hist_Net_emissions_tCO2e (hist_row fractional_row)
          = total_net_emissions r.
Proof.
  assert (Hin : In (hist_row fractional_row)
                   (build_historical_df [fractional_row]))
    by (left; reflexivity).
  split; [exact Hin |].
  destruct (build_historical_df_figures [fractional_row] _ Hin)
    as (r & Hr & _ & He & _ & _ & _ & _ & _ & _ & _ & _ & _ & _ & _ & _ & Hn).
  exists r. split; [exact Hr |]. split; [exact He | exact Hn].
Defined.

(** C5 as stated fails: the table shows 2 kWh for a consumption of
    2.75 kWh, whose nearest whole unit is 3. *)
Lemma hist_consumption_not_nearest :
  map Hist_Energy_kWh (build_historical_df [fractional_row]) = [2%Z]
  /\ nearest_whole 3 (energy_consumption fractional_row)
  /\ ~ (forall df row, In row (build_historical_df df) ->
        exists r, In r df
          /\ Hist_Year row = year r
          /\ nearest_whole (Hist_Energy_kWh row) (energy_consumption r)
          /\ nearest_whole (Hist_Water_m3 row) (water_consumption r)
          /\ nearest_whole (Hist_Waste_kg row) (waste_consumption r)
          /\ nearest_whole (Hist_Transport_pkm row) (transport_consumption r)).
Proof.
  split; [reflexivity |]. split; [vm_compute; discriminate |].
  intros H.
  destruct (H [fractional_row] (hist_row fractional_row))
    as (r & Hr & _ & He & _); [left; reflexivity |].
  destruct Hr as [<- | []].
  vm_compute in He. apply He. reflexivity.
Qed.

(** C9, as amended.  Every row of the renewables table is built from one
    input record: the total is the sum of that record's PV and thermal
    generation with the fractional part dropped, while the PV and thermal
    figures of the row are cut separately.  For non-negative generation the
    total is therefore the sum of the two figures of the row or one more,
    and it is exactly their sum when both inputs are whole numbers. *)
Theorem build_renewables_df_total (df_yearly : list YearlyRow) (row : RenRow) :
  In row (build_renewables_df df_yearly) ->
  exists r, In r df_yearly
    /\ Ren_Year row = year r
    /\ truncated (Ren_Solar_PV_kWh row) (solar_pv_kwh r)
    /\ truncated (Ren_Solar_thermal_kWh row) (solar_thermal_kwh r)
    /\ truncated (Ren_Total_renewables_kWh row)
                 (solar_pv_kwh r + solar_thermal_kwh r)
    /\ (0 <= solar_pv_kwh r -> 0 <= solar_thermal_kwh r ->
        (Ren_Solar_PV_kWh row + Ren_Solar_thermal_kWh row
         <= Ren_Total_renewables_kWh row
         <= Ren_Solar_PV_kWh row + Ren_Solar_thermal_kWh row + 1)%Z)
    /\ (forall a b,
        solar_pv_kwh r == inject_Z a -> solar_thermal_kwh r == inject_Z b ->
        Ren_Total_renewables_kWh row
        = (Ren_Solar_PV_kWh row + Ren_Solar_thermal_kWh row)%Z).
Proof.
  unfold build_renewables_df. intros Hin.
  apply in_map_iff in Hin. destruct Hin as [r [<- Hr]].
  apply (proj1 (in_sorted_frame _ _)) in Hr.
  exists r. cbn [ren_row Ren_Year Ren_Solar_PV_kWh Ren_Solar_thermal_kWh
                 Ren_Total_renewables_kWh].
  split; [exact Hr |]. split; [reflexivity |].
  do 3 (split; [apply int_truncated |]).
  split.
  - intros Hp Ht. apply int_add_bounds; assumption.
  - intros a b Ha Hb.
    rewrite (int_whole _ a Ha), (int_whole _ b Hb).
    apply int_whole. rewrite Ha, Hb, inject_Z_plus. reflexivity.
Qed.

Lemma build_renewables_df_total_witness :
  In (ren_row whole_row) (build_renewables_df [whole_row])
  /\ Ren_Total_renewables_kWh (ren_row whole_row)
     = (Ren_Solar_PV_kWh (ren_row whole_row)
        + Ren_Solar_thermal_kWh (ren_row whole_row))%Z.
Proof.
  assert (Hin : In (ren_row whole_row) (build_renewables_df [whole_row]))
    by (left; reflexivity).
  split; [exact Hin |].
  destruct (build_renewables_df_total [whole_row] _ Hin)
    as (r & Hr & _ & _ & _ & _ & _ & Hw).
  destruct Hr as [<- | []].
  apply (Hw 1200 300)%Z; reflexivity.
Defined.

(** C9 as stated fails: with 0.5 kWh of PV and 0.5 kWh of solar thermal
    generation the row reports 0, 0 and a total of 1. *)
Lemma renewables_total_not_sum_of_columns :
  solar_pv_kwh scenario_A == 1 # 2
  /\ solar_thermal_kwh scenario_A == 1 # 2
  /\ map (fun row => (Ren_Solar_PV_kWh row, Ren_Solar_thermal_kWh row,
                      Ren_Total_renewables_kWh row))
         (build_renewables_df [scenario_A]) = [(0, 0, 1)%Z]
  /\ ~ (forall df row, In row (build_renewables_df df) ->
        Ren_Total_renewables_kWh row
        = (Ren_Solar_PV_kWh row + Ren_Solar_thermal_kWh row)%Z).
Proof.
  split; [reflexivity |]. split; [reflexivity |]. split; [reflexivity |].
  intros H.
  specialize (H [scenario_A] (ren_row scenario_A) (or_introl eq_refl)).
  discriminate H.
Qed.

(** ** Cost table *)

Lemma cat_map_keys : map fst cat_map = categories.
Proof. reflexivity. Qed.

Lemma iloc0_raise {A : Type} (frame : list A) (e : exn) :
  iloc0 frame = Raise e -> e = IndexError /\ frame = [].
Proof.
  destruct frame; cbn; intros H; [|discriminate].
  injection H as <-. split; reflexivity.
Qed.

Lemma select_category_none (rates : list CostRate) (cat : string) :
  (forall c, In c rates -> category c <> cat) ->
  select_category rates cat = [].
Proof.
  intros H. unfold select_category.
  destruct (filter _ rates) as [|c l] eqn:E; [reflexivity |].
  assert (Hc : In c (filter (fun c => String.eqb (category c) cat) rates))
    by (rewrite E; left; reflexivity).
  apply filter_In in Hc. destruct Hc as [Hin Heq].
  apply String.eqb_eq in Heq. exfalso. exact (H c Hin Heq).
Qed.

Lemma select_category_some (rates : list CostRate) (cat : string) :
  (exists c, In c rates /\ category c = cat) ->
  exists c, iloc0 (select_category rates cat) = Ok c
            /\ In c rates /\ category c = cat.
Proof.
  intros [c0 [Hin0 Hcat0]]. unfold select_category.
  assert (H0 : In c0 (filter (fun c => String.eqb (category c) cat) rates)).
  { apply filter_In. split; [exact Hin0 |]. apply String.eqb_eq. exact Hcat0. }
  destruct (filter _ rates) as [|c l] eqn:E; [destruct H0 |].
  exists c. split; [reflexivity |].
  assert (Hc : In c (filter (fun c => String.eqb (category c) cat) rates))
    by (rewrite E; left; reflexivity).
  apply filter_In in Hc. destruct Hc as [Hin Heq].
  split; [exact Hin |]. apply String.eqb_eq. exact Heq.
Qed.

Lemma cost_entries_missing
    (items : list (string * ((YearlyRow -> Q) * string)))
    (row : YearlyRow) (rates : list CostRate) (cat : string) :
  In cat (map fst items) ->
  select_category rates cat = [] ->
  cost_entries items row rates = Raise IndexError.
Proof.
  intros Hin Hnone.
  induction items as [|[k [col u]] items' IH]; [destruct Hin |].
  cbn [cost_entries].
  destruct (iloc0 (select_category rates k)) as [c|e] eqn:E.
  - cbn [bind]. destruct Hin as [Hk | Hin'].
    + cbn in Hk. subst k. rewrite Hnone in E. discriminate E.
    + rewrite (IH Hin'). reflexivity.
  - apply iloc0_raise in E. destruct E as [-> _]. reflexivity.
Qed.



Lemma shares_sum (a1 a2 a3 a4 total : Q) :
  total == a1 + a2 + a3 + a4 -> 0 < total ->
  series_sum [a1 / total * 100; a2 / total * 100;
              a3 / total * 100; a4 / total * 100] == 100.
Proof.
  intros Ht Hpos. unfold series_sum. cbn [fold_left].
  assert (Hnz : ~ total == 0) by lra.
  transitivity ((a1 + a2 + a3 + a4) / total * 100); [field; exact Hnz |].
  rewrite <- Ht. field. exact Hnz.
Qed.

(** C3. When every category has a rate, [build_cost_df] returns a table of
    four rows, one per category in the fixed order, and a total: each
    annual cost is the record's consumption times the unit cost of the
    category's rate, the total is the sum of the four annual costs, each
    share is [annual_cost / total * 100] and the shares add up to 100 when
    the total is positive, and every share is zero when the total is zero. *)
Theorem build_cost_df_table (row : YearlyRow) (rates : list CostRate) :
  (forall cat, In cat categories -> exists c, In c rates /\ category c = cat) ->
  exists re rw rs rt df total,
    (In re rates /\ category re = "energy"%string)
    /\ (In rw rates /\ category rw = "water"%string)
    /\ (In rs rates /\ category rs = "waste"%string)
    /\ (In rt rates /\ category rt = "transport"%string)
    /\ build_cost_df row rates = Ok (df, total)
    /\ map Cost_Category df = ["Energy"; "Water"; "Waste"; "Transport"]%string
    /\ map Cost_Consumption df
       = [energy_consumption row; water_consumption row;
          waste_consumption row; transport_consumption row]
    /\ map Cost_Annual_cost df
       = [energy_consumption row * unit_cost re;
          water_consumption row * unit_cost rw;
          waste_consumption row * unit_cost rs;
          transport_consumption row * unit_cost rt]
    /\ total == energy_consumption row * unit_cost re
                + water_consumption row * unit_cost rw
                + waste_consumption row * unit_cost rs
                + transport_consumption row * unit_cost rt
    /\ (0 < total ->
        Forall (fun r => Cost_Share_of_total r
                         == Cost_Annual_cost r / total * 100) df
        /\ series_sum (map Cost_Share_of_total df) == 100)
    /\ (total == 0 -> Forall (fun r => Cost_Share_of_total r = 0) df).
Proof.
  intros Hall.
  destruct (select_category_some rates "energy") as (re & Ee & Hre);
    [apply Hall; cbn; tauto |].
  destruct (select_category_some rates "water") as (rw & Ew & Hrw);
    [apply Hall; cbn; tauto |].
  destruct (select_category_some rates "waste") as (rs & Es & Hrs);
    [apply Hall; cbn; tauto |].
  destruct (select_category_some rates "transport") as (rt & Et & Hrt);
    [apply Hall; cbn; tauto |].
  unfold build_cost_df, cat_map. cbn [cost_entries].
  rewrite Ee, Ew, Es, Et. cbn [bind map Entry_Annual_cost].
  set (a1 := energy_consumption row * unit_cost re).
  set (a2 := water_consumption row * unit_cost rw).
  set (a3 := waste_consumption row * unit_cost rs).
  set (a4 := transport_consumption row * unit_cost rt).
  set (total := series_sum [a1; a2; a3; a4]).
  assert (Ht : total == a1 + a2 + a3 + a4).
  { unfold total, series_sum. cbn [fold_left]. ring. }
  exists re, rw, rs, rt.
  destruct (ltb_spec 0 total) as [Hpos | Hle];
    eexists; exists total;
    (do 4 (split; [assumption |])); (split; [reflexivity |]);
    cbn [map with_share Cost_Category Cost_Consumption Cost_Annual_cost
         Cost_Share_of_total Entry_Category Entry_Consumption
         Entry_Annual_cost];
    (split; [reflexivity |]); (split; [reflexivity |]);
    (split; [reflexivity |]); (split; [exact Ht |]); split.
  - intros _. split.
    + repeat constructor; cbn [Cost_Share_of_total Cost_Annual_cost];
        reflexivity.
    + apply shares_sum; assumption.
  - intros H0. lra.
  - intros Hpos. lra.
  - intros _. repeat constructor.
Qed.

Lemma build_cost_df_table_witness :
  (forall cat, In cat categories ->
               exists c, In c sample_rates /\ category c = cat)
  /\ exists df total,
       build_cost_df scenario_A sample_rates = Ok (df, total)
       /\ map Cost_Annual_cost df
          = [1000 * (1 # 4); 200 * 3; 500 * (1 # 10); 3000 * (1 # 20)]
       /\ total == 1050
       /\ series_sum (map Cost_Share_of_total df) == 100.
Proof.
  assert (Hall : forall cat, In cat categories ->
                   exists c, In c sample_rates /\ category c = cat).
  { intros cat [<- | [<- | [<- | [<- | []]]]].
    - eexists; split; [left; reflexivity | reflexivity].
    - eexists; split; [right; left; reflexivity | reflexivity].
    - eexists; split; [do 2 right; left; reflexivity | reflexivity].
    - eexists; split; [do 3 right; left; reflexivity | reflexivity]. }
  split; [exact Hall |].
  destruct (build_cost_df_table scenario_A sample_rates Hall)
    as (re & rw & rs & rt & df & total
        & _ & _ & _ & _ & Hrun & _ & _ & _ & _ & Hshare & _).
  exists df, total. split; [exact Hrun |].
  vm_compute in Hrun. injection Hrun as <- <-.
  split; [reflexivity |]. split; [reflexivity |].
  apply Hshare. reflexivity.
Defined.

(** ** Baseline of the KPI deltas *)

Lemma fold_min_le_init (l : list Z) (a : Z) : (fold_left Z.min l a <= a)%Z.
Proof.
  revert a. induction l as [|h t IH]; intros a; cbn [fold_left].
  - lia.
  - specialize (IH (Z.min a h)). lia.
Qed.

Lemma fold_min_le (l : list Z) (a x : Z) :
  In x (a :: l) -> (fold_left Z.min l a <= x)%Z.
Proof.
  revert a. induction l as [|h t IH]; intros a Hin.
  - destruct Hin as [-> | []]. cbn. lia.
  - destruct Hin as [-> | [-> | Hin]].
    + apply fold_min_le_init.
    + cbn [fold_left]. pose proof (fold_min_le_init t (Z.min a x)). lia.
    + cbn [fold_left]. apply IH. right. exact Hin.
Qed.

Lemma fold_min_in (l : list Z) (a : Z) : In (fold_left Z.min l a) (a :: l).
Proof.
  revert a. induction l as [|h t IH]; intros a; cbn [fold_left].
  - left. reflexivity.
  - destruct (IH (Z.min a h)) as [H | H].
    + rewrite <- H. destruct (Z.min_spec a h) as [[_ ->] | [_ ->]].
      * left. reflexivity.
      * right. left. reflexivity.
    + right. right. exact H.
Qed.

Lemma select_year_some (df : list YearlyRow) (y : Z) :
  In y (map year df) ->
  exists r, iloc0 (select_year df y) = Ok r /\ In r df /\ year r = y.
Proof.
  intros Hin. apply in_map_iff in Hin. destruct Hin as [r0 [Hy Hr0]].
  unfold select_year.
  assert (H0 : In r0 (filter (fun r => (year r =? y)%Z) df)).
  { apply filter_In. split; [exact Hr0 |]. apply Z.eqb_eq. exact Hy. }
  destruct (filter _ df) as [|r l] eqn:E; [destruct H0 |].
  exists r. split; [reflexivity |].
  assert (Hr : In r (filter (fun r => (year r =? y)%Z) df))
    by (rewrite E; left; reflexivity).
  apply filter_In in Hr. destruct Hr as [Hr Hyr].
  split; [exact Hr |]. apply Z.eqb_eq. exact Hyr.
Qed.

Lemma delta_vs_baseline_same (b c : Q) : b == c -> delta_vs_baseline b c == 0.
Proof.
  intros H. unfold delta_vs_baseline.
  destruct (Py.truthy b) eqn:E; [|reflexivity].
  unfold Py.truthy in E. apply negb_true_iff in E.
  assert (Hnz : ~ b == 0).
  { intros H0. apply Qeq_bool_iff in H0. congruence. }
  rewrite <- H. field. exact Hnz.
Qed.

(** C10. For a non-empty yearly frame and a reporting year present in it,
    the render pass succeeds; the baseline year is the least year of the
    frame and the baseline row is a row of the frame with that year; the
    three deltas (net emissions, carbon intensity, energy consumption)
    compare the baseline row's value with the reporting row's value; and
    when the reporting year is the baseline year, every delta is zero. *)
Theorem kpis_baseline (df_yearly : list YearlyRow) (selected_year : Z) :
  df_yearly <> [] ->
  In selected_year (map year df_yearly) ->
  exists k, kpis df_yearly selected_year = Ok k
    /\ In (baseline_year k) (map year df_yearly)
    /\ (forall r, In r df_yearly -> (baseline_year k <= year r)%Z)
    /\ In (row_baseline k) df_yearly
    /\ year (row_baseline k) = baseline_year k
    /\ In (row_year k) df_yearly
    /\ year (row_year k) = selected_year
    /\ delta_net k
       = delta_vs_baseline (total_net_emissions (row_baseline k))
                           (total_net_emissions (row_year k))
    /\ delta_intensity k
       = delta_vs_baseline
           (intensity_per_area FLOOR_AREA_M2
              (total_net_emissions (row_baseline k)))
           (intensity_per_area FLOOR_AREA_M2 (total_net_emissions (row_year k)))
    /\ delta_energy k
       = delta_vs_baseline (energy_consumption (row_baseline k))
                           (energy_consumption (row_year k))
    /\ (selected_year = baseline_year k ->
        row_year k = row_baseline k
        /\ delta_net k == 0 /\ delta_intensity k == 0 /\ delta_energy k == 0).
Proof.
  intros Hne Hsel.
  destruct df_yearly as [|r0 rest] eqn:Edf; [contradiction |].
  rewrite <- Edf in *.
  set (b := fold_left Z.min (map year rest) (year r0)).
  assert (Hb_in : In b (map year df_yearly)).
  { rewrite Edf. cbn [map]. apply fold_min_in. }
  assert (Hb_le : forall r, In r df_yearly -> (b <= year r)%Z).
  { intros r Hr. apply fold_min_le.
    change (year r0 :: map year rest) with (map year (r0 :: rest)).
    rewrite <- Edf. apply in_map. exact Hr. }
  destruct (select_year_some df_yearly selected_year Hsel)
    as (ry & Ey & Hry & Hyy).
  destruct (select_year_some df_yearly b Hb_in) as (rb & Eb & Hrb & Hyb).
  assert (Hk : exists k, kpis df_yearly selected_year = Ok k
                         /\ baseline_year k = b).
  { unfold kpis. rewrite Edf. rewrite <- Edf. fold b.
    rewrite Ey. cbn [bind]. rewrite Eb. cbn [bind].
    eexists. split; reflexivity. }
  destruct Hk as (k & Hk & Hkb). exists k.
  destruct (kpis_fields _ _ _ Hk)
    as (Fy & Fb & Fn & Fbn & Fdn & Fi & Fbi & Fdi & Fe & Fbe & Fde & _).
  rewrite Hkb in Fb.
  assert (Ry : row_year k = ry) by congruence.
  assert (Rb : row_baseline k = rb) by congruence.
  rewrite Hkb, Ry, Rb.
  split; [exact Hk |]. split; [exact Hb_in |]. split; [exact Hb_le |].
  split; [exact Hrb |]. split; [exact Hyb |].
  split; [exact Hry |]. split; [exact Hyy |].
  split; [rewrite Fdn, Fbn, Fn, Ry, Rb; reflexivity |].
  split; [rewrite Fdi, Fbi, Fi, Fbn, Fn, Ry, Rb; reflexivity |].
  split; [rewrite Fde, Fbe, Fe, Ry, Rb; reflexivity |].
  intros Hsame.
  assert (Hrows : ry = rb).
  { rewrite Hsame in Ey. congruence. }
  split; [exact Hrows |].
  rewrite Fdn, Fdi, Fde, Fbi, Fi, Fbe, Fe, Fbn, Fn, Ry, Rb, Hrows.
  repeat split; apply delta_vs_baseline_same; reflexivity.
Qed.

Lemma kpis_baseline_witness :
  sample_frame <> []
  /\ In 2021%Z (map year sample_frame)
  /\ exists k, kpis sample_frame 2021 = Ok k
       /\ baseline_year k = 2021%Z
       /\ delta_net k == 0 /\ delta_intensity k == 0 /\ delta_energy k == 0.
Proof.
  assert (Hne : sample_frame <> []) by discriminate.
  assert (Hin : In 2021%Z (map year sample_frame))
    by (right; left; reflexivity).
  split; [exact Hne |]. split; [exact Hin |].
  destruct (kpis_baseline sample_frame 2021 Hne Hin)
    as (k & Hk & _ & _ & _ & _ & _ & _ & _ & _ & _ & Hzero).
  exists k. split; [exact Hk |].
  assert (Hb : baseline_year k = 2021%Z).
  { vm_compute in Hk. injection Hk as <-. reflexivity. }
  split; [exact Hb |].
  apply Hzero. symmetry. exact Hb.
Defined.

(** * Further properties of the script *)

(** ** Row order of the yearly tables *)

Lemma ren_years (rows : list YearlyRow) :
  map Ren_Year (map ren_row rows) = map year rows.
Proof.
  rewrite map_map. apply map_ext. reflexivity.
Qed.

(** The renewables table has one row per input record, built from a
    rearrangement of the input; its years ascend, strictly when the input
    years are unique. *)
Theorem build_renewables_df_rows (df_yearly : list YearlyRow) :
  List.length (build_renewables_df df_yearly) = List.length df_yearly
  /\ (exists rows, Permutation df_yearly rows
                   /\ build_renewables_df df_yearly = map ren_row rows)
  /\ StronglySorted Z.le (map Ren_Year (build_renewables_df df_yearly))
  /\ (NoDup (map year df_yearly) ->
      StronglySorted Z.lt (map Ren_Year (build_renewables_df df_yearly))).
Proof.
  unfold build_renewables_df.
  pose proof (sort_values_year_perm df_yearly) as Hperm.
  pose proof (sort_values_year_sorted df_yearly) as Hsorted.
  rewrite ren_years.
  split; [|split; [|split]].
  - rewrite List.length_map. symmetry. apply Permutation_length. exact Hperm.
  - exists (sort_values_year df_yearly). split; [exact Hperm | reflexivity].
  - apply sorted_map_year. exact Hsorted.
  - intros Hnd. apply sorted_nodup_strict.
    + apply sorted_map_year. exact Hsorted.
    + eapply Permutation_NoDup; [|exact Hnd].
      apply Permutation_map. exact Hperm.
Qed.

Lemma build_renewables_df_rows_witness :
  NoDup (map year sample_frame)
  /\ StronglySorted Z.lt (map Ren_Year (build_renewables_df sample_frame)).
Proof.
  assert (Hnd : NoDup (map year sample_frame)).
  { cbn. repeat constructor; cbn; intuition discriminate. }
  split; [exact Hnd |].
  exact (proj2 (proj2 (proj2 (build_renewables_df_rows sample_frame))) Hnd).
Defined.

(** Two year-sorted lists of rows with distinct years that hold the same
    rows are the same list. *)
Lemma sorted_perm_unique (l1 l2 : list YearlyRow) :
  StronglySorted year_le l1 -> StronglySorted year_le l2 ->
  NoDup (map year l1) -> Permutation l1 l2 -> l1 = l2.
Proof.
  revert l2. induction l1 as [|h1 t1 IH]; intros l2 S1 S2 Hnd Hp.
  - apply Permutation_nil in Hp. now subst.
  - destruct l2 as [|h2 t2].
    { apply Permutation_sym, Permutation_nil in Hp. discriminate. }
    inversion S1 as [|? ? S1' F1]; subst.
    inversion S2 as [|? ? S2' F2]; subst.
    inversion Hnd as [|? ? Hnotin Hnd']; subst.
    rewrite Forall_forall in F1, F2.
    assert (Hh : h1 = h2).
    { assert (H12 : In h1 (h2 :: t2))
        by (eapply Permutation_in; [exact Hp | left; reflexivity]).
      assert (H21 : In h2 (h1 :: t1))
        by (eapply Permutation_in;
            [apply Permutation_sym; exact Hp | left; reflexivity]).
      destruct H12 as [E | H12]; [now symmetry |].
      destruct H21 as [E | H21]; [exact E |].
      pose proof (F1 _ H21) as L1. pose proof (F2 _ H12) as L2.
      unfold year_le in L1, L2.
      exfalso. apply Hnotin.
      replace (year h1) with (year h2) by lia.
      apply in_map. exact H21. }
    subst h2. f_equal.
    apply IH; try assumption.
    eapply Permutation_cons_inv. exact Hp.
Qed.

(** When the years are unique, the two yearly tables do not depend on the
    order in which the query returned the rows. *)
Theorem yearly_tables_order_independent (df df' : list YearlyRow) :
  NoDup (map year df) -> Permutation df df' ->
  build_historical_df df = build_historical_df df'
  /\ build_renewables_df df = build_renewables_df df'.
Proof.
  intros Hnd Hp.
  assert (E : sort_values_year df = sort_values_year df').
  { apply sorted_perm_unique.
    - apply sort_values_year_sorted.
    - apply sort_values_year_sorted.
    - eapply Permutation_NoDup; [|exact Hnd].
      apply Permutation_map. apply sort_values_year_perm.
    - eapply perm_trans; [apply Permutation_sym, sort_values_year_perm |].
      eapply perm_trans; [exact Hp |]. apply sort_values_year_perm. }
  unfold build_historical_df, build_renewables_df. rewrite E.
  split; reflexivity.
Qed.

Lemma yearly_tables_order_independent_witness :
  NoDup (map year sample_frame)
  /\ Permutation sample_frame sample_frame_shuffled
  /\ build_historical_df sample_frame
     = build_historical_df sample_frame_shuffled.
Proof.
  assert (Hnd : NoDup (map year sample_frame)).
  { cbn. repeat constructor; cbn; intuition discriminate. }
  assert (Hp : Permutation sample_frame sample_frame_shuffled).
  { unfold sample_frame, sample_frame_shuffled.
    eapply perm_trans; [apply perm_skip, perm_swap |]. apply perm_swap. }
  split; [exact Hnd |]. split; [exact Hp |].
  exact (proj1 (yearly_tables_order_independent _ _ Hnd Hp)).
Defined.

(** ** Net emissions, offset share and the KPI deltas *)

Lemma max0_ge (x : Q) : x <= Py.max 0 x.
Proof.
  unfold Py.max. destruct (ltb_spec 0 x); lra.
Qed.

Lemma max0_zero_iff (x : Q) : Py.max 0 x == 0 <-> x <= 0.
Proof.
  unfold Py.max. destruct (ltb_spec 0 x); split; intros; lra.
Qed.

(** Net emissions are at least gross minus offset, vanish exactly when the
    offset covers gross emissions, and never exceed non-negative gross
    emissions under a non-negative offset. *)
Theorem total_net_emissions_bounds (r : YearlyRow) :
  total_gross_emissions r - renewable_offset r <= total_net_emissions r
  /\ (total_net_emissions r == 0
      <-> total_gross_emissions r <= renewable_offset r)
  /\ (0 <= total_gross_emissions r -> 0 <= renewable_offset r ->
      total_net_emissions r <= total_gross_emissions r).
Proof.
  unfold total_net_emissions. cbv zeta.
  set (g := total_gross_emissions r). set (o := renewable_offset r).
  split; [apply max0_ge |]. split.
  - rewrite max0_zero_iff. split; intros; lra.
  - intros Hg Ho. unfold Py.max. destruct (ltb_spec 0 (g - o)); lra.
Qed.

Lemma total_net_emissions_bounds_witness :
  0 <= total_gross_emissions scenario_A
  /\ 0 <= renewable_offset scenario_A
  /\ total_net_emissions scenario_A <= total_gross_emissions scenario_A.
Proof.
  assert (Hg : 0 <= total_gross_emissions scenario_A)
    by (vm_compute; discriminate).
  assert (Ho : 0 <= renewable_offset scenario_A)
    by (vm_compute; discriminate).
  split; [exact Hg |]. split; [exact Ho |].
  exact (proj2 (proj2 (total_net_emissions_bounds scenario_A)) Hg Ho).
Defined.

(** With positive gross emissions, the offset share of the renewables
    table reaches 100 exactly when net emissions are zero, and it lies
    between 0 and 100 when the offset lies between 0 and gross emissions. *)
Theorem offset_share_and_net (r : YearlyRow) :
  0 < total_gross_emissions r ->
  (100 <= Ren_Offset_share_pct (ren_row r) <-> total_net_emissions r == 0)
  /\ (0 <= renewable_offset r <= total_gross_emissions r ->
      0 <= Ren_Offset_share_pct (ren_row r) <= 100).
Proof.
  intros Hg. cbn [ren_row Ren_Offset_share_pct]. unfold offset_share_of.
  rewrite truthy_true by lra.
  unfold total_net_emissions. cbv zeta. rewrite max0_zero_iff.
  set (g := total_gross_emissions r) in *. set (o := renewable_offset r).
  assert (Hs : (o / g) * g == o) by (field; lra).
  set (s := o / g) in *.
  split; [split |]; intros H.
  - assert (1 <= s) by lra. nra.
  - assert (1 <= s); [|lra].
    apply (Qmult_le_r _ _ g Hg). lra.
  - assert (0 <= s /\ s <= 1); [|lra]. split.
    + apply (Qmult_le_r _ _ g Hg). lra.
    + apply (Qmult_le_r _ _ g Hg). lra.
Qed.

Lemma offset_share_and_net_witness :
  0 < total_gross_emissions scenario_B
  /\ 100 <= Ren_Offset_share_pct (ren_row scenario_B).
Proof.
  assert (Hg : 0 < total_gross_emissions scenario_B) by reflexivity.
  split; [exact Hg |].
  apply (proj1 (offset_share_and_net scenario_B Hg)). reflexivity.
Defined.

Lemma truthy_iff (x : Q) : Py.truthy x = true <-> ~ x == 0.
Proof.
  unfold Py.truthy. rewrite negb_true_iff. split.
  - apply Qeq_bool_neq.
  - intros H. destruct (Qeq_bool x 0) eqn:E; [|reflexivity].
    apply Qeq_bool_iff in E. contradiction.
Qed.




Lemma delta_vs_baseline_le_100 (b c : Q) :
  0 <= b -> 0 <= c -> delta_vs_baseline b c <= 100.
Proof.
  intros Hb Hc. unfold delta_vs_baseline.
  destruct (Py.truthy b) eqn:E; [|lra].
  apply truthy_iff in E.
  assert (Hpos : 0 < b) by lra.
  assert ((b - c) / b <= 1); [|lra].
  apply Qle_shift_div_r; lra.
Qed.

Lemma intensity_nonneg (net : Q) :
  0 <= net -> 0 <= intensity_per_area FLOOR_AREA_M2 net.
Proof.
  intros H. unfold intensity_per_area.
  apply Qle_shift_div_l; [reflexivity | lra].
Qed.

(** Whatever the data, the net-carbon and carbon-intensity deltas never
    exceed 100 percent, because net emissions are clamped at zero; the
    energy delta has the same bound when the two consumptions are
    non-negative.  A delta is non-negative when the reporting value does not
    exceed the baseline value. *)
Theorem kpis_delta_bounds (df_yearly : list YearlyRow) (y : Z) (k : Kpi) :
  kpis df_yearly y = Ok k ->
  delta_net k <= 100
  /\ delta_intensity k <= 100
  /\ (net_em k <= baseline_net k -> 0 <= delta_net k)
  /\ (0 <= energy_cons k -> 0 <= baseline_energy_cons k ->
      delta_energy k <= 100).
Proof.
  intros Hk.
  destruct (kpis_fields _ _ _ Hk)
    as (_ & _ & Fn & Fbn & Fdn & Fi & Fbi & Fdi & _ & _ & Fde & _).
  assert (Hn : 0 <= net_em k).
  { rewrite Fn. unfold total_net_emissions. apply max0_nonneg. }
  assert (Hbn : 0 <= baseline_net k).
  { rewrite Fbn. unfold total_net_emissions. apply max0_nonneg. }
  split; [rewrite Fdn; apply delta_vs_baseline_le_100; assumption |].
  split.
  { rewrite Fdi, Fbi, Fi.
    apply delta_vs_baseline_le_100; apply intensity_nonneg; assumption. }
  split.
  - intros Hle. rewrite Fdn. unfold delta_vs_baseline.
    destruct (Py.truthy (baseline_net k)) eqn:E; [|lra].
    apply truthy_iff in E.
    assert (0 <= (baseline_net k - net_em k) / baseline_net k); [|lra].
    apply Qle_shift_div_l; lra.
  - intros He Hbe. rewrite Fde.
    apply delta_vs_baseline_le_100; assumption.
Qed.

Lemma kpis_delta_bounds_witness :
  exists k, kpis sample_frame_shuffled 2023 = Ok k
            /\ delta_net k <= 100 /\ delta_intensity k <= 100.
Proof.
  destruct (kpis sample_frame_shuffled 2023) as [k|] eqn:E;
    [|discriminate E].
  exists k. split; [reflexivity |].
  destruct (kpis_delta_bounds sample_frame_shuffled 2023 k E)
    as (H1 & H2 & _).
  split; [exact H1 | exact H2].
Defined.

(** ** When the render pass stops or fails *)

Lemma select_year_none (df : list YearlyRow) (y : Z) :
  ~ In y (map year df) -> select_year df y = [].
Proof.
  intros Hnot. unfold select_year.
  destruct (filter _ df) as [|r l] eqn:E; [reflexivity |].
  assert (Hr : In r (filter (fun r => (year r =? y)%Z) df))
    by (rewrite E; left; reflexivity).
  apply filter_In in Hr. destruct Hr as [Hr Hy].
  apply Z.eqb_eq in Hy. exfalso. apply Hnot.
  rewrite <- Hy. apply in_map. exact Hr.
Qed.

Lemma kpis_ok (df : list YearlyRow) (y : Z) :
  In y (map year df) -> exists k, kpis df y = Ok k.
Proof.
  intros Hy. destruct df as [|r0 rest] eqn:Edf; [destruct Hy |].
  rewrite <- Edf in *.
  set (b := fold_left Z.min (map year rest) (year r0)).
  assert (Hb : In b (map year df)).
  { rewrite Edf. cbn [map]. apply fold_min_in. }
  destruct (select_year_some df y Hy) as (ry & Ey & _).
  destruct (select_year_some df b Hb) as (rb & Eb & _).
  unfold kpis. rewrite Edf. rewrite <- Edf. fold b.
  rewrite Ey. cbn [bind]. rewrite Eb. cbn [bind].
  eexists. reflexivity.
Qed.

Lemma kpis_missing_year (df : list YearlyRow) (y : Z) :
  df <> [] -> ~ In y (map year df) -> kpis df y = Raise IndexError.
Proof.
  intros Hne Hnot. destruct df as [|r0 rest] eqn:Edf; [contradiction |].
  rewrite <- Edf in *. unfold kpis. rewrite Edf. rewrite <- Edf.
  rewrite (select_year_none df y Hnot). reflexivity.
Qed.

(** The render pass stops exactly on an empty yearly frame, fails with the
    lookup error exactly when the frame is non-empty and has no row for the
    reporting year, and yields the KPIs exactly when the reporting year
    occurs in the frame. *)
Theorem kpis_outcomes (df_yearly : list YearlyRow) (y : Z) :
  (kpis df_yearly y = Raise StopRender <-> df_yearly = [])
  /\ (kpis df_yearly y = Raise IndexError
      <-> df_yearly <> [] /\ ~ In y (map year df_yearly))
  /\ ((exists k, kpis df_yearly y = Ok k) <-> In y (map year df_yearly)).
Proof.
  assert (Hcases : df_yearly = [] \/ df_yearly <> []).
  { destruct df_yearly; [left; reflexivity | right; discriminate]. }
  destruct Hcases as [-> | Hne].
  - cbn. split; [|split].
    + split; reflexivity.
    + split; [discriminate | intros [H _]; exfalso; apply H; reflexivity].
    + split; [intros [k Hk]; discriminate Hk | intros []].
  - destruct (in_dec Z.eq_dec y (map year df_yearly)) as [Hin | Hnot].
    + destruct (kpis_ok df_yearly y Hin) as [k Hk]. rewrite Hk.
      split; [|split].
      * split; [discriminate | intros H; contradiction].
      * split; [discriminate | intros [_ H]; contradiction].
      * split; [intros _; exact Hin | intros _; exists k; reflexivity].
    + rewrite (kpis_missing_year df_yearly y Hne Hnot).
      split; [|split].
      * split; [discriminate | intros H; contradiction].
      * split; [intros _; split; assumption | intros _; reflexivity].
      * split; [intros [k Hk]; discriminate Hk | intros H; contradiction].
Qed.

(** ** The reporting-year options *)

Lemma unique_In (s : list Z) (x : Z) : In x (unique s) <-> In x s.
Proof.
  induction s as [|h t IH]; cbn [unique]; [tauto |].
  cbn [In]. rewrite filter_In, IH, negb_true_iff, Z.eqb_neq.
  destruct (Z.eq_dec h x); [tauto |]. intuition congruence.
Qed.

Lemma unique_NoDup (s : list Z) : NoDup (unique s).
Proof.
  induction s as [|h t IH]; cbn [unique]; constructor.
  - rewrite filter_In, negb_true_iff, Z.eqb_neq. tauto.
  - apply NoDup_filter. exact IH.
Qed.

Lemma insert_desc_perm (x : Z) (l : list Z) :
  Permutation (x :: l) (insert_desc x l).
Proof.
  induction l as [|h t IH]; cbn.
  - apply Permutation_refl.
  - destruct (h <=? x)%Z.
    + apply Permutation_refl.
    + eapply perm_trans; [apply perm_swap |].
      apply perm_skip. exact IH.
Qed.

Lemma sorted_reverse_perm (l : list Z) : Permutation l (sorted_reverse l).
Proof.
  induction l as [|x t IH]; cbn.
  - apply perm_nil.
  - eapply perm_trans; [apply perm_skip; exact IH |].
    apply insert_desc_perm.
Qed.

Lemma insert_desc_sorted (x : Z) (l : list Z) :
  StronglySorted Z.ge l -> StronglySorted Z.ge (insert_desc x l).
Proof.
  induction 1 as [|h t Ht IH Hall]; cbn.
  - constructor; constructor.
  - destruct (Z.leb_spec h x) as [Hle | Hgt].
    + constructor; [constructor; assumption |].
      constructor; [lia |].
      eapply Forall_impl; [|exact Hall]. intros a Ha. lia.
    + constructor; [exact IH |].
      eapply Permutation_Forall; [apply insert_desc_perm |].
      constructor; [lia | exact Hall].
Qed.

Lemma sorted_reverse_sorted (l : list Z) :
  StronglySorted Z.ge (sorted_reverse l).
Proof.
  induction l as [|x t IH]; cbn.
  - constructor.
  - apply insert_desc_sorted. exact IH.
Qed.

Lemma descending_nodup_strict (l : list Z) :
  StronglySorted Z.ge l -> NoDup l -> StronglySorted Z.gt l.
Proof.
  induction 1 as [|h t Ht IH Hall]; intros Hnd; constructor.
  - apply IH. now inversion Hnd.
  - inversion Hnd as [|? ? Hnotin Hnd']; subst.
    rewrite Forall_forall in *. intros x Hx.
    specialize (Hall x Hx).
    assert (x <> h) by (intros ->; contradiction).
    lia.
Qed.

Lemma years_In (df : list YearlyRow) (y : Z) :
  In y (years df) <-> In y (map year df).
Proof.
  unfold years. split; intros H.
  - apply unique_In.
    eapply Permutation_in; [apply Permutation_sym, sorted_reverse_perm |].
    exact H.
  - eapply Permutation_in; [apply sorted_reverse_perm |].
    apply unique_In. exact H.
Qed.

Lemma years_descending (df : list YearlyRow) : StronglySorted Z.gt (years df).
Proof.
  unfold years. apply descending_nodup_strict.
  - apply sorted_reverse_sorted.
  - eapply Permutation_NoDup; [apply sorted_reverse_perm |].
    apply unique_NoDup.
Qed.

(** The select box offers exactly the years that occur in the frame, each
    once and latest first, and the render pass succeeds for every option. *)
Theorem years_options (df_yearly : list YearlyRow) :
  (forall y, In y (years df_yearly) <-> In y (map year df_yearly))
  /\ StronglySorted Z.gt (years df_yearly)
  /\ NoDup (years df_yearly)
  /\ (forall y, In y (years df_yearly) -> exists k, kpis df_yearly y = Ok k).
Proof.
  split; [apply years_In |]. split; [apply years_descending |]. split.
  - unfold years. eapply Permutation_NoDup; [apply sorted_reverse_perm |].
    apply unique_NoDup.
  - intros y Hy. apply kpis_ok. apply years_In. exact Hy.
Qed.

Lemma descending_last (l : list Z) (d x : Z) :
  StronglySorted Z.gt l -> In x l -> (last l d <= x)%Z.
Proof.
  induction 1 as [|h t Ht IH Hall]; intros Hin; [destruct Hin |].
  destruct t as [|h' t'].
  - destruct Hin as [-> | []]. cbn. lia.
  - change (last (h :: h' :: t') d) with (last (h' :: t') d).
    destruct Hin as [-> | Hin].
    + rewrite Forall_forall in Hall.
      assert (Hl : In (last (h' :: t') d) (h' :: t')).
      { destruct (exists_last (l := h' :: t')) as (l0 & a & E);
          [discriminate |].
        rewrite E, last_last. apply in_or_app. right. left. reflexivity. }
      specialize (Hall _ Hl). lia.
    + apply IH. exact Hin.
Qed.

(** On a non-empty frame the select box starts at the latest year, for
    which the render pass succeeds, and the baseline year of the KPIs is
    the last of the options. *)
Theorem default_year_latest (df_yearly : list YearlyRow) :
  df_yearly <> [] ->
  exists y0 k,
    default_year df_yearly = Some y0
    /\ In y0 (map year df_yearly)
    /\ (forall r, In r df_yearly -> (year r <= y0)%Z)
    /\ kpis df_yearly y0 = Ok k
    /\ baseline_year k = last (years df_yearly) y0.
Proof.
  intros Hne.
  pose proof (years_In df_yearly) as HIn.
  pose proof (years_descending df_yearly) as Hdesc.
  unfold default_year.
  destruct (years df_yearly) as [|y0 ys] eqn:Ey.
  { exfalso. destruct df_yearly as [|r0 rest]; [contradiction |].
    apply (proj2 (HIn (year r0))). left. reflexivity. }
  assert (Hy0 : In y0 (map year df_yearly))
    by (apply HIn; left; reflexivity).
  destruct (kpis_ok df_yearly y0 Hy0) as [k Hk].
  exists y0, k. split; [reflexivity |]. split; [exact Hy0 |]. split.
  - intros r Hr.
    assert (Hyr : In (year r) (y0 :: ys)) by (apply HIn, in_map; exact Hr).
    inversion Hdesc as [|? ? _ Hall]; subst. rewrite Forall_forall in Hall.
    destruct Hyr as [<- | Hyr]; [lia |]. specialize (Hall _ Hyr). lia.
  - split; [exact Hk |].
    assert (Hb : In (baseline_year k) (map year df_yearly)
                 /\ forall x, In x (map year df_yearly) ->
                              (baseline_year k <= x)%Z).
    { destruct df_yearly as [|r0 rest] eqn:Edf; [contradiction |].
      unfold kpis in Hk.
      destruct (iloc0 (select_year (r0 :: rest) y0)) as [ry|];
        [|discriminate Hk].
      cbn [bind] in Hk.
      destruct (iloc0 (select_year (r0 :: rest) _)) as [rb|];
        [|discriminate Hk].
      cbn [bind] in Hk. injection Hk as <-. cbn [baseline_year map].
      split; [apply fold_min_in |]. intros x Hx. apply fold_min_le. exact Hx. }
    destruct Hb as [Hb1 Hb2].
    set (l := last (y0 :: ys) y0).
    assert (Hl : In l (y0 :: ys)).
    { unfold l. destruct (exists_last (l := y0 :: ys)) as (l0 & a & E);
        [discriminate |].
      rewrite E, last_last. apply in_or_app. right. left. reflexivity. }
    assert (H1 : (l <= baseline_year k)%Z).
    { apply descending_last; [exact Hdesc |]. apply HIn. exact Hb1. }
    assert (H2 : (baseline_year k <= l)%Z).
    { apply Hb2. apply HIn. exact Hl. }
    lia.
Qed.

Lemma default_year_latest_witness :
  sample_frame <> []
  /\ exists y0 k, default_year sample_frame = Some y0
       /\ kpis sample_frame y0 = Ok k
       /\ baseline_year k = last (years sample_frame) y0.
Proof.
  assert (Hne : sample_frame <> []) by discriminate.
  split; [exact Hne |].
  destruct (default_year_latest sample_frame Hne)
    as (y0 & k & Hd & _ & _ & Hk & Hb).
  exists y0, k. split; [exact Hd |]. split; [exact Hk | exact Hb].
Defined.

(** ** More on the cost table *)

Lemma cost_entries_ok
    (items : list (string * ((YearlyRow -> Q) * string)))
    (row : YearlyRow) (rates : list CostRate) :
  (forall cat, In cat (map fst items) ->
               exists c, In c rates /\ category c = cat) ->
  exists rows, cost_entries items row rates = Ok rows.
Proof.
  induction items as [|[k [col u]] items' IH]; intros Hall.
  - exists []. reflexivity.
  - destruct (select_category_some rates k) as (c & Ec & _).
    { apply Hall. left. reflexivity. }
    destruct IH as [rows Hrows].
    { intros cat Hcat. apply Hall. right. exact Hcat. }
    cbn [cost_entries]. rewrite Ec. cbn [bind]. rewrite Hrows. cbn [bind].
    eexists. reflexivity.
Qed.

Lemma has_rate_dec (rates : list CostRate) (cat : string) :
  (exists c, In c rates /\ category c = cat)
  \/ (forall c, In c rates -> category c <> cat).
Proof.
  destruct (select_category rates cat) as [|c l] eqn:E.
  - right. intros c Hc Hcat.
    assert (H : In c (select_category rates cat)).
    { apply filter_In. split; [exact Hc |]. apply String.eqb_eq. exact Hcat. }
    rewrite E in H. destruct H.
  - left. exists c.
    assert (H : In c (select_category rates cat))
      by (rewrite E; left; reflexivity).
    apply filter_In in H. destruct H as [Hc Hcat].
    split; [exact Hc |]. apply String.eqb_eq. exact Hcat.
Qed.

(** [build_cost_df] returns a table exactly when each of the four
    categories has a rate, and the lookup error is the only way it fails;
    whether it fails does not depend on the yearly record. *)
Theorem build_cost_df_outcomes (row : YearlyRow) (rates : list CostRate) :
  ((exists df total, build_cost_df row rates = Ok (df, total))
   <-> (forall cat, In cat categories ->
                    exists c, In c rates /\ category c = cat))
  /\ (forall e, build_cost_df row rates = Raise e -> e = IndexError)
  /\ (forall row' e, build_cost_df row rates = Raise e ->
                     build_cost_df row' rates = Raise e).
Proof.
  assert (Hmiss : forall r cat, In cat categories ->
            (forall c, In c rates -> category c <> cat) ->
            build_cost_df r rates = Raise IndexError).
  { intros r cat Hcat Hnone. unfold build_cost_df.
    rewrite (cost_entries_missing cat_map r rates cat).
    - reflexivity.
    - rewrite cat_map_keys. exact Hcat.
    - apply select_category_none. exact Hnone. }
  assert (Hok : forall r,
            (forall cat, In cat categories ->
                         exists c, In c rates /\ category c = cat) ->
            exists df total, build_cost_df r rates = Ok (df, total)).
  { intros r Hall. unfold build_cost_df.
    destruct (cost_entries_ok cat_map r rates) as [rows Hrows].
    { rewrite cat_map_keys. exact Hall. }
    rewrite Hrows. cbn [bind]. eexists. eexists. reflexivity. }
  assert (Hcases :
            (forall cat, In cat categories ->
                         exists c, In c rates /\ category c = cat)
            \/ exists cat, In cat categories
                           /\ forall c, In c rates -> category c <> cat).
  { unfold categories.
    destruct (has_rate_dec rates "energy") as [He | He];
      [|right; eexists; split; [|exact He]; cbn; tauto].
    destruct (has_rate_dec rates "water") as [Hw | Hw];
      [|right; eexists; split; [|exact Hw]; cbn; tauto].
    destruct (has_rate_dec rates "waste") as [Hs | Hs];
      [|right; eexists; split; [|exact Hs]; cbn; tauto].
    destruct (has_rate_dec rates "transport") as [Ht | Ht];
      [|right; eexists; split; [|exact Ht]; cbn; tauto].
    left. intros cat [<- | [<- | [<- | [<- | []]]]]; assumption. }
  destruct Hcases as [Hall | (cat & Hcat & Hnone)].
  - destruct (Hok row Hall) as (df & total & E).
    split; [|split].
    + split; [intros _; exact Hall | intros _; exists df, total; exact E].
    + intros e He. rewrite E in He. discriminate He.
    + intros row' e He. rewrite E in He. discriminate He.
  - pose proof (Hmiss row cat Hcat Hnone) as E.
    split; [|split].
    + split.
      * intros (df & total & E'). rewrite E in E'. discriminate E'.
      * intros Hall. destruct (Hall cat Hcat) as (c & Hc & Hcc).
        exfalso. exact (Hnone c Hc Hcc).
    + intros e He. rewrite E in He. injection He as <-. reflexivity.
    + intros row' e He. rewrite E in He. injection He as <-.
      apply (Hmiss row' cat Hcat Hnone).
Qed.

Lemma select_category_app (rates later : list CostRate) (cat : string) :
  select_category (rates ++ later) cat
  = select_category rates cat ++ select_category later cat.
Proof.
  unfold select_category. apply filter_app.
Qed.

Lemma cost_entries_same_lookups
    (items : list (string * ((YearlyRow -> Q) * string)))
    (row : YearlyRow) (rates rates' : list CostRate) :
  (forall cat, In cat (map fst items) ->
               iloc0 (select_category rates' cat)
               = iloc0 (select_category rates cat)) ->
  cost_entries items row rates' = cost_entries items row rates.
Proof.
  induction items as [|[k [col u]] items' IH]; intros Hall; [reflexivity |].
  cbn [cost_entries].
  rewrite (Hall k) by (left; reflexivity).
  rewrite IH by (intros cat Hcat; apply Hall; right; exact Hcat).
  reflexivity.
Qed.

(** Only the first rate of each category counts: on a rates frame that has
    a rate for every category, rows that come later in the frame, whatever
    their category, change neither the table nor the total. *)
Theorem build_cost_df_first_rate_wins
    (row : YearlyRow) (rates later : list CostRate) :
  (forall cat, In cat categories ->
               exists c, In c rates /\ category c = cat) ->
  build_cost_df row (rates ++ later) = build_cost_df row rates.
Proof.
  intros Hall. unfold build_cost_df.
  rewrite (cost_entries_same_lookups cat_map row rates (rates ++ later));
    [reflexivity |].
  intros cat Hcat. rewrite cat_map_keys in Hcat.
  destruct (select_category_some rates cat (Hall cat Hcat)) as (c & Ec & _).
  rewrite select_category_app.
  destruct (select_category rates cat) as [|c' l]; [discriminate Ec |].
  reflexivity.
Qed.

Lemma build_cost_df_first_rate_wins_witness :
  (forall cat, In cat categories ->
               exists c, In c sample_rates /\ category c = cat)
  /\ build_cost_df scenario_A (sample_rates ++ credit_rates)
     = build_cost_df scenario_A sample_rates.
Proof.
  assert (Hall : forall cat, In cat categories ->
                   exists c, In c sample_rates /\ category c = cat).
  { intros cat [<- | [<- | [<- | [<- | []]]]].
    - eexists; split; [left; reflexivity | reflexivity].
    - eexists; split; [right; left; reflexivity | reflexivity].
    - eexists; split; [do 2 right; left; reflexivity | reflexivity].
    - eexists; split; [do 3 right; left; reflexivity | reflexivity]. }
  split; [exact Hall |].
  exact (build_cost_df_first_rate_wins scenario_A sample_rates credit_rates
                                        Hall).
Defined.

(** The shape of a returned cost table: the four annual costs from the
    first rate of each category, and the share column of the branch taken. *)
Lemma build_cost_df_inv (row : YearlyRow) (rates : list CostRate)
    (df : list CostRow) (total : Q) :
  build_cost_df row rates = Ok (df, total) ->
  exists re rw rs rt,
    In re rates /\ In rw rates /\ In rs rates /\ In rt rates
    /\ let a1 := energy_consumption row * unit_cost re in
       let a2 := water_consumption row * unit_cost rw in
       let a3 := waste_consumption row * unit_cost rs in
       let a4 := transport_consumption row * unit_cost rt in
       total == a1 + a2 + a3 + a4
       /\ map Cost_Annual_cost df = [a1; a2; a3; a4]
       /\ map Cost_Share_of_total df
          = if Py.ltb 0 total
            then [a1 / total * 100; a2 / total * 100;
                  a3 / total * 100; a4 / total * 100]
            else [0; 0; 0; 0].
Proof.
  unfold build_cost_df, cat_map. cbn [cost_entries].
  destruct (iloc0 (select_category rates "energy")) as [re|] eqn:Ee;
    [|discriminate].
  destruct (iloc0 (select_category rates "water")) as [rw|] eqn:Ew;
    [|discriminate].
  destruct (iloc0 (select_category rates "waste")) as [rs|] eqn:Es;
    [|discriminate].
  destruct (iloc0 (select_category rates "transport")) as [rt|] eqn:Et;
    [|discriminate].
  cbn [bind map Entry_Annual_cost]. intros H. injection H as <- <-.
  assert (Hin : forall cat c, iloc0 (select_category rates cat) = Ok c ->
                              In c rates).
  { intros cat c E. unfold select_category in E.
    destruct (filter _ rates) as [|c' l] eqn:F; [discriminate E |].
    injection E as <-.
    assert (H : In c' (filter (fun c => String.eqb (category c) cat) rates))
      by (rewrite F; left; reflexivity).
    apply filter_In in H. tauto. }
  exists re, rw, rs, rt.
  split; [exact (Hin _ _ Ee) |]. split; [exact (Hin _ _ Ew) |].
  split; [exact (Hin _ _ Es) |]. split; [exact (Hin _ _ Et) |].
  cbv zeta. split; [unfold series_sum; cbn [fold_left]; ring |].
  destruct (Py.ltb 0 _); split; reflexivity.
Qed.

(** With non-negative consumptions and unit costs, every annual cost and
    the total are non-negative and every share lies between 0 and 100. *)
Theorem build_cost_df_nonneg (row : YearlyRow) (rates : list CostRate)
    (df : list CostRow) (total : Q) :
  build_cost_df row rates = Ok (df, total) ->
  0 <= energy_consumption row -> 0 <= water_consumption row ->
  0 <= waste_consumption row -> 0 <= transport_consumption row ->
  (forall c, In c rates -> 0 <= unit_cost c) ->
  Forall (fun r => 0 <= Cost_Annual_cost r) df
  /\ 0 <= total
  /\ Forall (fun r => 0 <= Cost_Share_of_total r <= 100) df.
Proof.
  intros Hrun He Hw Hs Ht Hrates.
  destruct (build_cost_df_inv _ _ _ _ Hrun)
    as (re & rw & rs & rt & Ie & Iw & Is & It & Htot & Hann & Hsh).
  cbv zeta in Htot, Hann, Hsh.
  set (a1 := energy_consumption row * unit_cost re) in *.
  set (a2 := water_consumption row * unit_cost rw) in *.
  set (a3 := waste_consumption row * unit_cost rs) in *.
  set (a4 := transport_consumption row * unit_cost rt) in *.
  assert (H1 : 0 <= a1) by (apply Qmult_le_0_compat; auto).
  assert (H2 : 0 <= a2) by (apply Qmult_le_0_compat; auto).
  assert (H3 : 0 <= a3) by (apply Qmult_le_0_compat; auto).
  assert (H4 : 0 <= a4) by (apply Qmult_le_0_compat; auto).
  assert (Hshare : forall a, 0 <= a -> a <= total -> 0 < total ->
                             0 <= a / total * 100 <= 100).
  { intros a Ha Hat Hpos.
    assert (0 <= a / total) by (apply Qle_shift_div_l; lra).
    assert (a / total <= 1) by (apply Qle_shift_div_r; lra).
    lra. }
  split; [|split].
  - apply (proj1 (Forall_map Cost_Annual_cost
                             (fun a => 0 <= a) df)).
    rewrite Hann. repeat constructor; assumption.
  - lra.
  - apply (proj1 (Forall_map Cost_Share_of_total
                             (fun s => 0 <= s <= 100) df)).
    rewrite Hsh. destruct (ltb_spec 0 total) as [Hpos | Hle].
    + repeat constructor; apply Hshare; lra.
    + repeat constructor; lra.
Qed.

Lemma build_cost_df_nonneg_witness :
  exists df total,
    build_cost_df scenario_A sample_rates = Ok (df, total)
    /\ 0 <= total
    /\ Forall (fun r => 0 <= Cost_Share_of_total r <= 100) df.
Proof.
  destruct (build_cost_df scenario_A sample_rates) as [[df total]|] eqn:E;
    [|discriminate E].
  exists df, total. split; [reflexivity |].
  refine (proj2 (build_cost_df_nonneg scenario_A sample_rates df total E
                   _ _ _ _ _)).
  - vm_compute; discriminate.
  - vm_compute; discriminate.
  - vm_compute; discriminate.
  - vm_compute; discriminate.
  - intros c [<- | [<- | [<- | [<- | []]]]]; vm_compute; discriminate.
Defined.

(** When the total is zero or negative (a credit outweighing the costs),
    every share is exactly zero: the table never shows a negative share or
    a share computed against a non-positive total. *)
Theorem build_cost_df_nonpositive_total (row : YearlyRow)
    (rates : list CostRate) (df : list CostRow) (total : Q) :
  build_cost_df row rates = Ok (df, total) ->
  total <= 0 ->
  Forall (fun r => Cost_Share_of_total r = 0) df.
Proof.
  intros Hrun Hle.
  destruct (build_cost_df_inv _ _ _ _ Hrun)
    as (re & rw & rs & rt & _ & _ & _ & _ & _ & _ & Hsh).
  cbv zeta in Hsh.
  apply (proj1 (Forall_map Cost_Share_of_total (fun s => s = 0) df)).
  rewrite Hsh. destruct (ltb_spec 0 total) as [Hpos | _]; [lra |].
  repeat constructor.
Qed.

Lemma build_cost_df_nonpositive_total_witness :
  exists df total,
    build_cost_df scenario_A credit_rates = Ok (df, total)
    /\ total == - (1200)
    /\ Forall (fun r => Cost_Share_of_total r = 0) df.
Proof.
  destruct (build_cost_df scenario_A credit_rates) as [[df total]|] eqn:E;
    [|discriminate E].
  exists df, total. split; [reflexivity |].
  assert (Ht : total == - (1200)).
  { vm_compute in E. injection E as _ <-. reflexivity. }
  split; [exact Ht |].
  apply (build_cost_df_nonpositive_total scenario_A credit_rates df total E).
  rewrite Ht. vm_compute. discriminate.
Defined.

(** ** Cost section *)


(** ** Comfort section *)



(** ** Sign of the net-carbon delta *)

(** The net-carbon delta is positive exactly when net emissions fell below
    the baseline and negative exactly when they rose above a positive
    baseline; a rise from a zero baseline is reported as no change. *)
Theorem kpis_delta_net_sign (df_yearly : list YearlyRow) (y : Z) (k : Kpi) :
  kpis df_yearly y = Ok k ->
  (0 < delta_net k <-> net_em k < baseline_net k)
  /\ (delta_net k < 0 <-> 0 < baseline_net k /\ baseline_net k < net_em k)
  /\ (baseline_net k == 0 -> delta_net k = 0).
Proof.
  intros Hk.
  destruct (kpis_fields _ _ _ Hk) as (_ & _ & Fn & Fbn & Fdn & _).
  assert (Hn : 0 <= net_em k).
  { rewrite Fn. unfold total_net_emissions. apply max0_nonneg. }
  assert (Hbn : 0 <= baseline_net k).
  { rewrite Fbn. unfold total_net_emissions. apply max0_nonneg. }
  rewrite Fdn. unfold delta_vs_baseline.
  set (b := baseline_net k) in *. set (c := net_em k) in *.
  destruct (Py.truthy b) eqn:E.
  - apply truthy_iff in E. assert (Hpos : 0 < b) by lra.
    assert (Hs : ((b - c) / b) * b == b - c) by (field; exact E).
    set (s := (b - c) / b) in *.
    split; [|split].
    + split; intros H.
      * assert (0 < s) by lra. nra.
      * assert (0 < s); [|lra].
        apply (Qmult_lt_r _ _ b Hpos). lra.
    + split.
      * intros H. split; [exact Hpos |]. assert (s < 0) by lra. nra.
      * intros [_ H]. assert (s < 0); [|lra].
        apply (Qmult_lt_r _ _ b Hpos). lra.
    + intros H0. contradiction.
  - assert (Hb0 : b == 0).
    { destruct (Qeq_dec b 0) as [H | H]; [exact H |].
      apply truthy_iff in H. congruence. }
    split; [|split].
    + split; intros H; lra.
    + split; [intros H; lra | intros [H _]; lra].
    + intros _. reflexivity.
Qed.

Lemma kpis_delta_net_sign_witness :
  exists k, kpis sample_frame 2023 = Ok k
            /\ baseline_net k == 0 /\ 0 < net_em k /\ delta_net k = 0.
Proof.
  destruct (kpis sample_frame 2023) as [k|] eqn:E; [|discriminate E].
  exists k. split; [reflexivity |].
  assert (Hb : baseline_net k == 0 /\ 0 < net_em k).
  { vm_compute in E. injection E as <-. split; reflexivity. }
  destruct Hb as [Hb Hn]. split; [exact Hb |]. split; [exact Hn |].
  exact (proj2 (proj2 (kpis_delta_net_sign sample_frame 2023 k E)) Hb).
Defined.

(** ** Consistency of the historical table *)

(** Every row of the historical table is consistent in its own columns:
    net emissions are the four emission figures of the row summed, less the
    offset of the row, floored at zero. *)
Theorem build_historical_df_row_consistent
    (df_yearly : list YearlyRow) (row : HistRow) :
  In row (build_historical_df df_yearly) ->
  let emitted := Hist_Energy_tCO2e row + Hist_Water_tCO2e row
                 + Hist_Waste_tCO2e row + Hist_Transport_tCO2e row in
  let credited := Hist_Renewable_offset_tCO2e row in
  0 <= Hist_Net_emissions_tCO2e row
  /\ emitted - credited <= Hist_Net_emissions_tCO2e row
  /\ (credited <= emitted ->
      Hist_Net_emissions_tCO2e row == emitted - credited)
  /\ (Hist_Net_emissions_tCO2e row == 0 <-> emitted <= credited).
Proof.
  unfold build_historical_df. intros Hin.
  apply in_map_iff in Hin. destruct Hin as [r [<- _]].
  cbn [hist_row Hist_Energy_tCO2e Hist_Water_tCO2e Hist_Waste_tCO2e
       Hist_Transport_tCO2e Hist_Renewable_offset_tCO2e
       Hist_Net_emissions_tCO2e].
  cbv zeta. unfold total_net_emissions, total_gross_emissions. cbv zeta.
  set (x := energy_emissions r + water_emissions r + waste_emissions r
            + transport_emissions r - renewable_offset r).
  split; [apply max0_nonneg |]. split; [apply max0_ge |]. split.
  - intros H. apply max0_of_nonneg. unfold x. lra.
  - rewrite max0_zero_iff. unfold x. split; intros; lra.
Qed.

Lemma build_historical_df_row_consistent_witness :
  In (hist_row scenario_B) (build_historical_df [scenario_B])
  /\ Hist_Net_emissions_tCO2e (hist_row scenario_B) == 0.
Proof.
  assert (Hin : In (hist_row scenario_B) (build_historical_df [scenario_B]))
    by (left; reflexivity).
  split; [exact Hin |].
  destruct (build_historical_df_row_consistent [scenario_B] _ Hin)
    as (_ & _ & _ & Hz).
  apply (proj2 Hz). vm_compute. discriminate.
Defined.

(** ** Table rows and reporting-year options *)

Lemma sorted_snoc (l : list Z) (a : Z) :
  StronglySorted Z.gt l -> Forall (fun x => (x > a)%Z) l ->
  StronglySorted Z.gt (l ++ [a]).
Proof.
  induction 1 as [|h t Ht IH Hall]; intros Hfa; cbn.
  - constructor; constructor.
  - inversion Hfa as [|? ? Hh Hfa']; subst.
    constructor; [apply IH; exact Hfa' |].
    apply Forall_app. split; [exact Hall |].
    constructor; [exact Hh | constructor].
Qed.

Lemma ascending_rev (l : list Z) :
  StronglySorted Z.lt l -> StronglySorted Z.gt (rev l).
Proof.
  induction 1 as [|h t Ht IH Hall]; cbn; [constructor |].
  apply sorted_snoc; [exact IH |].
  rewrite Forall_forall in *. intros x Hx.
  apply in_rev in Hx. specialize (Hall x Hx). lia.
Qed.

Lemma descending_unique (l1 l2 : list Z) :
  StronglySorted Z.gt l1 -> StronglySorted Z.gt l2 ->
  (forall x, In x l1 <-> In x l2) -> l1 = l2.
Proof.
  revert l2. induction l1 as [|h1 t1 IH]; intros l2 S1 S2 Hiff.
  - destruct l2 as [|h2 t2]; [reflexivity |].
    exfalso. apply (proj2 (Hiff h2)). left. reflexivity.
  - destruct l2 as [|h2 t2].
    { exfalso. apply (proj1 (Hiff h1)). left. reflexivity. }
    inversion S1 as [|? ? S1' F1]; subst.
    inversion S2 as [|? ? S2' F2]; subst.
    rewrite Forall_forall in F1, F2.
    assert (Hh : h1 = h2).
    { destruct (proj1 (Hiff h1) (or_introl eq_refl)) as [E | H12];
        [now symmetry |].
      destruct (proj2 (Hiff h2) (or_introl eq_refl)) as [E | H21];
        [exact E |].
      pose proof (F1 _ H21). pose proof (F2 _ H12). lia. }
    subst h2. f_equal. apply IH; try assumption.
    intros x. split; intros Hx.
    + destruct (proj1 (Hiff x) (or_intror Hx)) as [E | H]; [|exact H].
      subst x. specialize (F1 _ Hx). lia.
    + destruct (proj2 (Hiff x) (or_intror Hx)) as [E | H]; [|exact H].
      subst x. specialize (F2 _ Hx). lia.
Qed.

(** When the years of the frame are unique, the select box lists the years
    of the historical table, and of the renewables table, in the opposite
    order: one option per table row. *)
Theorem years_match_table_rows (df_yearly : list YearlyRow) :
  NoDup (map year df_yearly) ->
  years df_yearly = rev (map Hist_Year (build_historical_df df_yearly))
  /\ years df_yearly = rev (map Ren_Year (build_renewables_df df_yearly)).
Proof.
  intros Hnd.
  assert (E : years df_yearly = rev (map year (sort_values_year df_yearly))).
  { apply descending_unique.
    - apply years_descending.
    - apply ascending_rev. apply sorted_nodup_strict.
      + apply sorted_map_year, sort_values_year_sorted.
      + eapply Permutation_NoDup; [|exact Hnd].
        apply Permutation_map, sort_values_year_perm.
    - intros x. rewrite years_In, <- in_rev. split.
      + apply Permutation_in, Permutation_map, sort_values_year_perm.
      + apply Permutation_in, Permutation_sym, Permutation_map,
          sort_values_year_perm. }
  unfold build_historical_df, build_renewables_df.
  rewrite hist_years, ren_years. split; exact E.
Qed.

Lemma years_match_table_rows_witness :
  NoDup (map year sample_frame)
  /\ years sample_frame = [2023; 2022; 2021]%Z
  /\ years sample_frame
     = rev (map Hist_Year (build_historical_df sample_frame)).
Proof.
  assert (Hnd : NoDup (map year sample_frame)).
  { cbn. repeat constructor; cbn; intuition discriminate. }
  split; [exact Hnd |]. split; [reflexivity |].
  exact (proj1 (years_match_table_rows sample_frame Hnd)).
Defined.

(** ** Concrete runs of the outcome theorems *)

Lemma kpis_outcomes_witness :
  kpis [] 2023 = Raise StopRender
  /\ (sample_frame <> [] /\ ~ In 2019%Z (map year sample_frame))
  /\ kpis sample_frame 2019 = Raise IndexError
  /\ In 2022%Z (map year sample_frame)
  /\ exists k, kpis sample_frame 2022 = Ok k.
Proof.
  assert (Hmiss : sample_frame <> [] /\ ~ In 2019%Z (map year sample_frame)).
  { split; [discriminate |].
    cbn. intros [H | [H | [H | []]]]; discriminate H. }
  assert (Hin : In 2022%Z (map year sample_frame))
    by (do 2 right; left; reflexivity).
  split; [exact (proj2 (proj1 (kpis_outcomes [] 2023)) eq_refl) |].
  split; [exact Hmiss |].
  split; [exact (proj2 (proj1 (proj2 (kpis_outcomes sample_frame 2019)))
                       Hmiss) |].
  split; [exact Hin |].
  exact (proj2 (proj2 (proj2 (kpis_outcomes sample_frame 2022))) Hin).
Defined.

Lemma years_options_witness :
  In 2022%Z (years sample_frame)
  /\ exists k, kpis sample_frame 2022 = Ok k.
Proof.
  assert (Hin : In 2022%Z (years sample_frame))
    by (right; left; reflexivity).
  split; [exact Hin |].
  exact (proj2 (proj2 (proj2 (years_options sample_frame))) 2022%Z Hin).
Defined.

Lemma build_cost_df_outcomes_witness :
  build_cost_df scenario_A rates_without_waste = Raise IndexError
  /\ build_cost_df whole_row rates_without_waste = Raise IndexError.
Proof.
  assert (H : build_cost_df scenario_A rates_without_waste = Raise IndexError)
    by reflexivity.
  split; [exact H |].
  exact (proj2 (proj2 (build_cost_df_outcomes scenario_A rates_without_waste))
               whole_row IndexError H).
Defined.

